(** * Bell scheduler: a shallow embedding of [src/core/scheduler.py]

    The development follows the Python module class by class:
    - [QTime]: the part of Qt's [QTime] the scheduler uses;
    - [Bell]: the [Bell] class with [__init__], [to_dict] and [from_dict];
    - [BellScheduler]: the scheduler state, its persisted file and its
      methods, each one a state transformer that also returns the signals
      it emitted.

    Modelling choices
    - Python integers are [Z]; [float('inf')] is the extra constructor
      [PInf] of [PyNum].
    - The clock ([QTime.currentTime()], [QDate.currentDate()]) is an explicit
      argument of every method that reads it.
    - Signals are collected, in emission order, in a list of [Event]s.
    - The JSON file is the list of decoded records; a record is a dictionary
      whose keys may be missing and whose present values have the type the
      schema gives them.
    - A [Bell] object is represented by the values of its attributes. *)

From Stdlib Require Import ZArith List String Ascii Bool Lia.
Import ListNotations.
Open Scope string_scope.
Open Scope Z_scope.
Open Scope list_scope.

(** ** Python values shared by the classes *)

(** An [int] or [float('inf')]: the two kinds of number [seconds_to_next]
    holds. *)
Inductive PyNum : Type :=
| PInt (z : Z)
| PInf.

Definition PyNum_eqb (a b : PyNum) : bool :=
  match a, b with
  | PInt x, PInt y => x =? y
  | PInf, PInf => true
  | _, _ => false
  end.

(** [z < n] for an integer [z]. *)
Definition int_lt_num (z : Z) (n : PyNum) : bool :=
  match n with
  | PInt y => z <? y
  | PInf => true
  end.

(** [x in xs] on a list of strings. *)
Definition py_in (x : string) (xs : list string) : bool :=
  existsb (String.eqb x) xs.

(** Exceptions the load path can meet. *)
Inductive PyExc : Type :=
| KeyError (key : string)
| JSONDecodeError.

Inductive result (A : Type) : Type :=
| Ok (a : A)
| Raise (e : PyExc).
Arguments Ok {A} a.
Arguments Raise {A} e.

(** A list comprehension whose body may raise: the first exception ends it. *)
Fixpoint comprehension {A B : Type} (f : A -> result B) (l : list A)
  : result (list B) :=
  match l with
  | [] => Ok []
  | x :: rest =>
      match f x with
      | Raise e => Raise e
      | Ok y =>
          match comprehension f rest with
          | Raise e => Raise e
          | Ok ys => Ok (y :: ys)
          end
      end
  end.

(** ** QTime

    [QTime] belongs to PyQt5, not to the repository.  It is modelled the way
    Qt implements it: a count of milliseconds since midnight, with [-1] for
    the null time; the accessors of a time that is not valid return [-1],
    and [toString] of it is the empty string. *)
Module QTime.

Record t : Type := mk { mds : Z }.

Definition MSECS_PER_DAY : Z := 86400000.
Definition NullTime : t := mk (-1).

Definition isValid (q : t) : bool :=
  (-1 <? mds q) && (mds q <? MSECS_PER_DAY).

Definition hour (q : t) : Z :=
  if isValid q then mds q / 3600000 else -1.

Definition minute (q : t) : Z :=
  if isValid q then (mds q mod 3600000) / 60000 else -1.

Definition second (q : t) : Z :=
  if isValid q then (mds q / 1000) mod 60 else -1.

(** [QTime(h, m, s, ms)]: the null time when a component is out of range. *)
Definition hms (h m s ms : Z) : t :=
  if (0 <=? h) && (h <? 24) && (0 <=? m) && (m <? 60)
     && (0 <=? s) && (s <? 60) && (0 <=? ms) && (ms <? 1000)
  then mk ((h * 3600 + m * 60 + s) * 1000 + ms)
  else NullTime.

(** [QTime(h, m)]. *)
Definition hm (h m : Z) : t := hms h m 0 0.

Definition digit (d : Z) : ascii := ascii_of_nat (48 + Z.to_nat d).

Definition two_digits (n : Z) : string :=
  String (digit (n / 10)) (String (digit (n mod 10)) EmptyString).

(** [q.toString("hh:mm")]. *)
Definition toString (q : t) : string :=
  if isValid q
  then (two_digits (hour q) ++ ":" ++ two_digits (minute q))%string
  else "".

Definition digit_val (c : ascii) : option Z :=
  let n := Z.of_nat (nat_of_ascii c) in
  if (48 <=? n) && (n <=? 57) then Some (n - 48) else None.

(** [QTime.fromString(s, "hh:mm")]: two digits, a colon, two digits;
    anything else, or a value out of range, gives the null time. *)
Definition fromString (s : string) : t :=
  match s with
  | String a (String b (String c (String d (String e EmptyString)))) =>
      match digit_val a, digit_val b, digit_val d, digit_val e with
      | Some h1, Some h0, Some m1, Some m0 =>
          if Ascii.eqb c ":"%char
          then hm (10 * h1 + h0) (10 * m1 + m0)
          else NullTime
      | _, _, _, _ => NullTime
      end
  | _ => NullTime
  end.

(** [q.addSecs(s)]: wraps around midnight; a time that is not valid is
    returned as it is. *)
Definition addSecs (q : t) (s : Z) : t :=
  if isValid q then mk ((mds q + s * 1000) mod MSECS_PER_DAY) else q.

(** The time with its seconds and milliseconds cleared: what survives
    the format ["hh:mm"]. *)
Definition to_minute (q : t) : t :=
  if isValid q then hm (hour q) (minute q) else NullTime.

End QTime.

(** ** Bell *)

Definition weekdays : list string :=
  ["Monday"; "Tuesday"; "Wednesday"; "Thursday"; "Friday"].

(** A decoded JSON record of the bells file.  [None] is a missing key; [icon]
    and [tts_message] may be present and [null]. *)
Record BellData : Type := mkBellData {
  k_name : option string;
  k_time : option string;
  k_sound : option string;
  k_days : option (list string);
  k_category : option string;
  k_color : option string;
  k_volume : option Z;
  k_enabled : option bool;
  k_icon : option (option string);
  k_tts_message : option (option string);
  k_repeat : option bool;
  k_urgent : option bool;
  k_silent : option bool;
  k_id : option string
}.

(** [data.get(key, default)]. *)
Definition dict_get {A : Type} (v : option A) (default : A) : A :=
  match v with
  | Some x => x
  | None => default
  end.

(** [data[key]]. *)
Definition dict_item {A : Type} (key : string) (v : option A) : result A :=
  match v with
  | Some x => Ok x
  | None => Raise (KeyError key)
  end.

Module Bell.

Record t : Type := mk {
  name : string;
  time : QTime.t;
  sound : string;
  days : list string;
  category : string;
  color : string;
  volume : Z;
  enabled : bool;
  icon : option string;
  tts_message : option string;
  repeat : bool;
  urgent : bool;
  silent : bool;
  id : string
}.

(** [Bell.__init__]; [days] is [None] or a list. *)
Definition init (name : string) (time : QTime.t) (sound : string)
    (days : option (list string)) (category color : string) (volume : Z)
    (enabled : bool) (icon tts_message : option string)
    (repeat urgent silent : bool) : t :=
  {| name := name;
     time := time;
     sound := sound;
     days := match days with
             | Some (d :: ds) => d :: ds
             | _ => weekdays
             end;
     category := category;
     color := color;
     volume := volume;
     enabled := enabled;
     icon := icon;
     tts_message := tts_message;
     repeat := repeat;
     urgent := urgent;
     silent := silent;
     id := (name ++ "-" ++ QTime.toString time)%string |}.

(** [Bell(name, time)]: every other parameter at its default. *)
Definition new (name : string) (time : QTime.t) : t :=
  init name time "default.mp3" None "Default" "#00a0ff" 100 true
       None None false false false.

Definition to_dict (self : t) : BellData :=
  {| k_name := Some (name self);
     k_time := Some (QTime.toString (time self));
     k_sound := Some (sound self);
     k_days := Some (days self);
     k_category := Some (category self);
     k_color := Some (color self);
     k_volume := Some (volume self);
     k_enabled := Some (enabled self);
     k_icon := Some (icon self);
     k_tts_message := Some (tts_message self);
     k_repeat := Some (repeat self);
     k_urgent := Some (urgent self);
     k_silent := Some (silent self);
     k_id := Some (id self) |}.

Definition from_dict (data : BellData) : result t :=
  match dict_item "time" (k_time data) with
  | Raise e => Raise e
  | Ok time_str =>
      let time := QTime.fromString time_str in
      match dict_item "name" (k_name data) with
      | Raise e => Raise e
      | Ok name =>
          Ok (init name time
                (dict_get (k_sound data) "default.mp3")
                (Some (dict_get (k_days data) weekdays))
                (dict_get (k_category data) "Default")
                (dict_get (k_color data) "#00a0ff")
                (dict_get (k_volume data) 100)
                (dict_get (k_enabled data) true)
                (dict_get (k_icon data) None)
                (dict_get (k_tts_message data) None)
                (dict_get (k_repeat data) false)
                (dict_get (k_urgent data) false)
                (dict_get (k_silent data) false))
      end
  end.

Definition eq_dec (a b : t) : {a = b} + {a <> b}.
Proof.
  repeat decide equality; try apply Z.eq_dec; try apply Bool.bool_dec.
Defined.

Definition eqb (a b : t) : bool := if eq_dec a b then true else false.

(** What [__init__] establishes, and nothing in the module undoes: the id
    is derived from name and time, and the days are not empty. *)
Definition constructed (b : t) : Prop :=
  id b = (name b ++ "-" ++ QTime.toString (time b))%string /\ days b <> [].

(** The bell with its time reduced to hour and minute. *)
Definition on_the_minute (b : t) : t :=
  {| name := name b;
     time := QTime.to_minute (time b);
     sound := sound b;
     days := days b;
     category := category b;
     color := color b;
     volume := volume b;
     enabled := enabled b;
     icon := icon b;
     tts_message := tts_message b;
     repeat := repeat b;
     urgent := urgent b;
     silent := silent b;
     id := id b |}.

End Bell.

(** ** BellScheduler *)

(** One reading of the clock: [QTime.currentTime()] and
    [QDate.currentDate().toString("dddd")]. *)
Record Clock : Type := mkClock {
  current_time : QTime.t;
  current_day : string
}.

(** What [bells_file] holds on disk: nothing, something [json.load] rejects,
    or a list of records. *)
Inductive FileContent : Type :=
| Missing
| Corrupt
| Records (bells_data : list BellData).

(** The three signals of the scheduler.  [next_bell_changed] carries the two
    local variables it is emitted with, at the types they have in
    [update_next_bell]. *)
Inductive Event : Type :=
| bell_triggered (bell : Bell.t)
| bell_updated
| next_bell_changed (next_bell : option Bell.t) (min_seconds : PyNum).

Module BellScheduler.

Record t : Type := mk {
  bells : list Bell.t;
  next_bell : option Bell.t;
  seconds_to_next : PyNum;
  bells_file : FileContent
}.

(** A method: the new state and the signals emitted, in order. *)
Definition method : Type := t -> t * list Event.

Definition seq_method (m1 m2 : method) : method :=
  fun self =>
    let (self1, ev1) := m1 self in
    let (self2, ev2) := m2 self1 in
    (self2, ev1 ++ ev2).
Infix ";;" := seq_method (at level 61, left associativity).

Definition emit (ev : list Event) : method := fun self => (self, ev).

Definition set_bells (bs : list Bell.t) : method :=
  fun self =>
    (mk bs (next_bell self) (seconds_to_next self) (bells_file self), []).

Definition seconds_until_time (current target : QTime.t) : Z :=
  let current_secs :=
    QTime.hour current * 3600 + QTime.minute current * 60
    + QTime.second current in
  let target_secs := QTime.hour target * 3600 + QTime.minute target * 60 in
  let diff := target_secs - current_secs in
  if diff <? 0 then diff + 24 * 3600 else diff.

Definition save_bells : method :=
  fun self =>
    let bells_data := map Bell.to_dict (bells self) in
    (mk (bells self) (next_bell self) (seconds_to_next self)
        (Records bells_data), []).

Definition default_bells : list Bell.t :=
  [ Bell.new "School Start" (QTime.hm 9 0);
    Bell.new "Period 1" (QTime.hm 10 30);
    Bell.new "Break" (QTime.hm 11 20);
    Bell.new "Period 2" (QTime.hm 11 35);
    Bell.new "Lunch" (QTime.hm 12 25);
    Bell.new "Period 3" (QTime.hm 13 10);
    Bell.new "End of Day" (QTime.hm 14 0) ].

Definition create_default_bells : method :=
  set_bells default_bells ;; save_bells.

(** The loop of [update_next_bell] over [active_bells], with its two
    local variables. *)
Fixpoint next_loop (current_time : QTime.t) (active_bells : list Bell.t)
    (next_bell : option Bell.t) (min_seconds : PyNum)
  : option Bell.t * PyNum :=
  match active_bells with
  | [] => (next_bell, min_seconds)
  | bell :: rest =>
      let seconds_until :=
        seconds_until_time current_time (Bell.time bell) in
      if (0 <? seconds_until) && int_lt_num seconds_until min_seconds
      then next_loop current_time rest (Some bell) (PInt seconds_until)
      else next_loop current_time rest next_bell min_seconds
  end.

Definition active_bells (clock : Clock) (self : t) : list Bell.t :=
  filter (fun bell =>
            Bell.enabled bell && py_in (current_day clock) (Bell.days bell))
         (bells self).

(** [next_bell != self.next_bell].  [Bell] defines no [__eq__], so Python
    compares identities; here two bells with the same attributes are the
    same bell.  The comparison only decides whether the cache is rewritten
    and the signal emitted: afterwards the cache holds what the loop found
    in either case. *)
Definition bell_ne (a b : option Bell.t) : bool :=
  match a, b with
  | Some x, Some y => negb (Bell.eqb x y)
  | None, None => false
  | _, _ => true
  end.

Definition update_next_bell (clock : Clock) : method :=
  fun self =>
    let (next_bell', min_seconds) :=
      next_loop (current_time clock) (active_bells clock self) None PInf in
    if bell_ne next_bell' (next_bell self)
       || negb (PyNum_eqb min_seconds (seconds_to_next self))
    then
      (mk (bells self) next_bell' min_seconds (bells_file self),
       match next_bell' with
       | Some _ => [next_bell_changed next_bell' min_seconds]
       | None => []
       end)
    else (self, []).

Definition load_bells (clock : Clock) : method :=
  (fun self =>
     match bells_file self with
     | Missing => create_default_bells self
     | Corrupt => create_default_bells self
     | Records bells_data =>
         match comprehension Bell.from_dict bells_data with
         | Ok bs => set_bells bs self
         | Raise _ => create_default_bells self
         end
     end) ;; update_next_bell clock.

(** [BellScheduler.__init__] on a disk that holds [file]. *)
Definition init (clock : Clock) (file : FileContent) : t * list Event :=
  load_bells clock (mk [] None (PInt 0) file).

(** The loop of [check_bells]. *)
Fixpoint trigger_loop (clock : Clock) (bells : list Bell.t) : list Event :=
  match bells with
  | [] => []
  | bell :: rest =>
      if negb (Bell.enabled bell) then trigger_loop clock rest
      else if negb (py_in (current_day clock) (Bell.days bell))
      then trigger_loop clock rest
      else if (QTime.hour (Bell.time bell)
               =? QTime.hour (current_time clock))
              && (QTime.minute (Bell.time bell)
                  =? QTime.minute (current_time clock))
              && (QTime.second (current_time clock) =? 0)
      then bell_triggered bell :: trigger_loop clock rest
      else trigger_loop clock rest
  end.

Definition check_bells (clock : Clock) : method :=
  (fun self => emit (trigger_loop clock (bells self)) self)
  ;; update_next_bell clock.

Definition add_bell (clock : Clock) (bell : Bell.t) : method :=
  (fun self => set_bells (bells self ++ [bell]) self)
  ;; save_bells ;; update_next_bell clock ;; emit [bell_updated].

(** The loop of [update_bell]: the first bell with the id is replaced and
    the loop breaks. *)
Fixpoint update_loop (bell_id : string) (updated_bell : Bell.t)
    (bells : list Bell.t) : list Bell.t :=
  match bells with
  | [] => []
  | bell :: rest =>
      if String.eqb (Bell.id bell) bell_id
      then updated_bell :: rest
      else bell :: update_loop bell_id updated_bell rest
  end.

Definition update_bell (clock : Clock) (bell_id : string)
    (updated_bell : Bell.t) : method :=
  (fun self => set_bells (update_loop bell_id updated_bell (bells self)) self)
  ;; save_bells ;; update_next_bell clock ;; emit [bell_updated].

Definition remove_bell (clock : Clock) (bell_id : string) : method :=
  (fun self =>
     set_bells
       (filter (fun bell => negb (String.eqb (Bell.id bell) bell_id))
               (bells self)) self)
  ;; save_bells ;; update_next_bell clock ;; emit [bell_updated].

Definition get_bells_for_day (day : string) (self : t) : list Bell.t :=
  filter (fun bell => py_in day (Bell.days bell)) (bells self).

End BellScheduler.

(** ** Simulated clock

    The clock of second [k] of a day, and the scheduler polled at each
    second of a list in turn; every signal is recorded with the second it
    was emitted at. *)
Definition tick (day : string) (k : Z) : Clock :=
  mkClock (QTime.mk (k * 1000)) day.

Fixpoint simulate (day : string) (self : BellScheduler.t) (ticks : list Z)
  : list (Z * Event) :=
  match ticks with
  | [] => []
  | k :: rest =>
      let (self', ev) := BellScheduler.check_bells (tick day k) self in
      map (pair k) ev ++ simulate day self' rest
  end.

Definition day_ticks : list Z := map Z.of_nat (seq 0 (Z.to_nat 86400)).

Definition is_trigger_of (bell : Bell.t) (e : Z * Event) : bool :=
  match snd e with
  | bell_triggered b => Bell.eqb b bell
  | _ => false
  end.

Definition triggered (ev : list Event) : list Bell.t :=
  flat_map (fun e => match e with
                     | bell_triggered b => [b]
                     | _ => []
                     end) ev.

(** ** The specification's wording, for comparison with the code *)
Module Spec.

(** Seconds until the target: the raw difference, wrapped forward by a
    day when it is less than or equal to 0. *)
Definition seconds_until (current target : QTime.t) : Z :=
  let current_second_of_day :=
    QTime.hour current * 3600 + QTime.minute current * 60
    + QTime.second current in
  let target_minute_of_day :=
    QTime.hour target * 60 + QTime.minute target in
  let raw := target_minute_of_day * 60 - current_second_of_day in
  if raw <=? 0 then raw + 86400 else raw.

(** Removal that acts on the first match only. *)
Fixpoint remove_first (bell_id : string) (bells : list Bell.t)
  : list Bell.t :=
  match bells with
  | [] => []
  | bell :: rest =>
      if String.eqb (Bell.id bell) bell_id
      then rest
      else bell :: remove_first bell_id rest
  end.

End Spec.

(** ** Invariants of the next-bell loop *)

(** What the loop of [update_next_bell] holds in its two variables: no bell
    and infinity, or a bell and a strictly positive number of seconds. *)
Definition found_ok (found : option Bell.t * PyNum) : Prop :=
  (fst found = None /\ snd found = PInf)
  \/ (exists bell z, fst found = Some bell /\ snd found = PInt z /\ 0 < z).

(** The running minimum [ms'] of a poll, against the running minimum [ms]
    of the poll one second before it, at the same place of the loop. *)
Definition follows (ms ms' : PyNum) : Prop :=
  (ms = PInf /\ (ms' = PInf \/ ms' = PInt 86399))
  \/ (exists a, ms = PInt a /\ 2 <= a <= 86399 /\ ms' = PInt (a - 1)).

(** ** Sample data *)
Module Sample.

Definition assembly : Bell.t := Bell.new "Assembly" (QTime.hm 8 30).
Definition recess : Bell.t := Bell.new "Recess" (QTime.hm 10 15).

(** A bell whose time carries seconds, as [QTime.currentTime()] gives. *)
Definition exam : Bell.t := Bell.new "Exam" (QTime.hms 9 0 30 0).

(** Two bells with the same name and time, hence the same id. *)
Definition chime : Bell.t := Bell.new "Chime" (QTime.hm 12 0).
Definition chime_loud : Bell.t :=
  Bell.init "Chime" (QTime.hm 12 0) "loud.mp3" None "Default" "#00a0ff"
    100 true None None false false false.

(** A record with no ["time"] key. *)
Definition record_without_time : BellData :=
  {| k_name := Some "Broken"; k_time := None; k_sound := None;
     k_days := None; k_category := None; k_color := None;
     k_volume := None; k_enabled := None; k_icon := None;
     k_tts_message := None; k_repeat := None; k_urgent := None;
     k_silent := None; k_id := None |}.

(** A record whose time does not parse, and one with an empty day list. *)
Definition record_bad_time : BellData :=
  {| k_name := Some "Late"; k_time := Some "25:99"; k_sound := None;
     k_days := None; k_category := None; k_color := None;
     k_volume := None; k_enabled := None; k_icon := None;
     k_tts_message := None; k_repeat := None; k_urgent := None;
     k_silent := None; k_id := None |}.

Definition record_no_days : BellData :=
  {| k_name := Some "Inert"; k_time := Some "07:45"; k_sound := None;
     k_days := Some []; k_category := None; k_color := None;
     k_volume := None; k_enabled := None; k_icon := None;
     k_tts_message := None; k_repeat := None; k_urgent := None;
     k_silent := None; k_id := None |}.

Definition monday_morning : Clock := mkClock (QTime.hms 8 0 0 0) "Monday".

End Sample.

(** ** Vocabulary of the scheduler's further properties *)

(** The test [check_bells] makes on one bell, its three [if]s taken
    together. *)
Definition due (clock : Clock) (bell : Bell.t) : bool :=
  Bell.enabled bell
  && py_in (current_day clock) (Bell.days bell)
  && ((QTime.hour (Bell.time bell) =? QTime.hour (current_time clock))
      && (QTime.minute (Bell.time bell) =? QTime.minute (current_time clock))
      && (QTime.second (current_time clock) =? 0)).

(** The file holds what [save_bells] writes for the list in memory. *)
Definition mirrored (self : BellScheduler.t) : Prop :=
  BellScheduler.bells_file self
  = Records (map Bell.to_dict (BellScheduler.bells self)).

(** ** Zones: [src/core/multi_zone_controller.py]

    The zone controller is the caller that reads a bell's [id] and [name]
    to decide where the bell plays.  [get_zone_volume] divides with [/] and
    returns a float; it is left out. *)

(** A decoded JSON value, for the free-form [special_rules]. *)
#[warnings="-register-all"]
Inductive JSON : Type :=
| JNull
| JBool (b : bool)
| JInt (z : Z)
| JStr (s : string)
| JList (items : list JSON)
| JDict (members : list (string * JSON)).

Fixpoint str_map (f : ascii -> ascii) (s : string) : string :=
  match s with
  | EmptyString => EmptyString
  | String c rest => String (f c) (str_map f rest)
  end.

(** [s.lower()] on ASCII text: letters A to Z become a to z.  Characters
    outside ASCII are left as they are. *)
Definition str_lower (s : string) : string :=
  str_map (fun c =>
             let n := nat_of_ascii c in
             if (65 <=? n)%nat && (n <=? 90)%nat
             then ascii_of_nat (n + 32)
             else c) s.

(** [s.replace(' ', '_')]. *)
Definition str_replace_space (s : string) : string :=
  str_map (fun c => if Ascii.eqb c " "%char then "_"%char else c) s.

(** A decoded record of the zones file; [None] is a missing key. *)
Record ZoneData : Type := mkZoneData {
  zk_name : option string;
  zk_id : option string;
  zk_description : option string;
  zk_enabled : option bool;
  zk_volume_modifier : option Z;
  zk_bells_allowed : option (list string);
  zk_special_rules : option (list (string * JSON));
  zk_color : option string
}.

Module Zone.

Record t : Type := mk {
  name : string;
  id : string;
  description : string;
  enabled : bool;
  volume_modifier : Z;
  bells_allowed : list string;
  special_rules : list (string * JSON);
  color : string
}.

(** [Zone.__init__]; [id], [bells_allowed] and [special_rules] are [None]
    or a value, and a falsy value counts as [None]. *)
Definition init (name : string) (id : option string) (description : string)
    (enabled : bool) (volume_modifier : Z)
    (bells_allowed : option (list string))
    (special_rules : option (list (string * JSON))) (color : string) : t :=
  {| name := name;
     id := match id with
           | Some (String c rest) => String c rest
           | _ => ("zone_" ++ str_replace_space (str_lower name))%string
           end;
     description := description;
     enabled := enabled;
     volume_modifier := volume_modifier;
     bells_allowed := match bells_allowed with
                      | Some (b :: bs) => b :: bs
                      | _ => []
                      end;
     special_rules := match special_rules with
                      | Some (r :: rs) => r :: rs
                      | _ => []
                      end;
     color := color |}.

Definition to_dict (self : t) : ZoneData :=
  {| zk_name := Some (name self);
     zk_id := Some (id self);
     zk_description := Some (description self);
     zk_enabled := Some (enabled self);
     zk_volume_modifier := Some (volume_modifier self);
     zk_bells_allowed := Some (bells_allowed self);
     zk_special_rules := Some (special_rules self);
     zk_color := Some (color self) |}.

Definition from_dict (data : ZoneData) : result t :=
  match dict_item "name" (zk_name data) with
  | Raise e => Raise e
  | Ok name =>
      Ok (init name
            (zk_id data)
            (dict_get (zk_description data) "")
            (dict_get (zk_enabled data) true)
            (dict_get (zk_volume_modifier data) 100)
            (Some (dict_get (zk_bells_allowed data) []))
            (Some (dict_get (zk_special_rules data) []))
            (dict_get (zk_color data) "#00a0ff"))
  end.

Definition can_play_bell (self : t) (bell : Bell.t) : bool :=
  match bells_allowed self with
  | [] => true
  | _ :: _ =>
      py_in (Bell.id bell) (bells_allowed self)
      || py_in (Bell.name bell) (bells_allowed self)
  end.

(** [zone.enabled = enabled]. *)
Definition set_enabled (self : t) (value : bool) : t :=
  {| name := name self;
     id := id self;
     description := description self;
     enabled := value;
     volume_modifier := volume_modifier self;
     bells_allowed := bells_allowed self;
     special_rules := special_rules self;
     color := color self |}.

End Zone.

(** The dictionary [self.zones]: keys in insertion order, each key once. *)
Definition ZoneDict : Type := list (string * Zone.t).

(** [key in d]. *)
Fixpoint dict_contains (key : string) (d : ZoneDict) : bool :=
  match d with
  | [] => false
  | (k, _) :: rest => String.eqb k key || dict_contains key rest
  end.

(** [d.get(key)]. *)
Fixpoint dict_lookup (key : string) (d : ZoneDict) : option Zone.t :=
  match d with
  | [] => None
  | (k, v) :: rest => if String.eqb k key then Some v else dict_lookup key rest
  end.

(** [d[key] = value]: in place when the key is there, at the end when it
    is new. *)
Fixpoint dict_setitem (key : string) (value : Zone.t) (d : ZoneDict)
  : ZoneDict :=
  match d with
  | [] => [(key, value)]
  | (k, v) :: rest =>
      if String.eqb k key
      then (k, value) :: rest
      else (k, v) :: dict_setitem key value rest
  end.

(** [del d[key]]. *)
Fixpoint dict_delitem (key : string) (d : ZoneDict) : ZoneDict :=
  match d with
  | [] => []
  | (k, v) :: rest =>
      if String.eqb k key then rest else (k, v) :: dict_delitem key rest
  end.

(** [d[key].enabled = value], for a key that is there. *)
Fixpoint dict_set_enabled (key : string) (value : bool) (d : ZoneDict)
  : ZoneDict :=
  match d with
  | [] => []
  | (k, v) :: rest =>
      if String.eqb k key
      then (k, Zone.set_enabled v value) :: rest
      else (k, v) :: dict_set_enabled key value rest
  end.

(** [d.values()]. *)
Definition dict_values (d : ZoneDict) : list Zone.t := map snd d.

Inductive ZoneFileContent : Type :=
| ZoneMissing
| ZoneCorrupt
| ZoneRecords (zones_data : list ZoneData).

Inductive ZoneEvent : Type :=
| zone_added (zone : Zone.t)
| zone_updated (zone : Zone.t)
| zone_removed (zone_id : string)
| zone_status_changed (zone_id : string) (enabled : bool).

Module MultiZoneController.

Record t : Type := mk {
  zones : ZoneDict;
  zones_file : ZoneFileContent
}.

Definition method : Type := t -> t * list ZoneEvent.

Definition save_zones (self : t) : t :=
  let zones_data := map Zone.to_dict (dict_values (zones self)) in
  mk (zones self) (ZoneRecords zones_data).

(** The loop of [load_zones]: it runs inside the [try], so the first record
    that raises ends it and the zones stored so far stay. *)
Fixpoint load_loop (zones_data : list ZoneData) (zones : ZoneDict)
  : ZoneDict :=
  match zones_data with
  | [] => zones
  | zone_data :: rest =>
      match Zone.from_dict zone_data with
      | Raise _ => zones
      | Ok zone => load_loop rest (dict_setitem (Zone.id zone) zone zones)
      end
  end.

Definition load_zones (self : t) : t :=
  match zones_file self with
  | ZoneMissing => self
  | ZoneCorrupt => self
  | ZoneRecords zones_data =>
      mk (load_loop zones_data (zones self)) (zones_file self)
  end.

Definition default_zones : list Zone.t :=
  [ Zone.init "Main Building" None
      "Primary school building including all classrooms" true 100 None None
      "#00a0ff";
    Zone.init "Cafeteria" None "Dining and lunch area" true 100 None None
      "#00ff99";
    Zone.init "Gym" None "Sports and physical education area" true 100
      None None "#ff5500";
    Zone.init "Playground" None "Outdoor play area" true 100 None None
      "#ffaa00";
    Zone.init "Administration" None "Admin offices and staff rooms" true 100
      None None "#aa00ff" ].

Definition create_default_zones (self : t) : t :=
  save_zones
    (mk (fold_left (fun zones zone => dict_setitem (Zone.id zone) zone zones)
                   default_zones (zones self))
        (zones_file self)).

(** [MultiZoneController.__init__] on a disk that holds [file]. *)
Definition init (file : ZoneFileContent) : t :=
  let self := load_zones (mk [] file) in
  match zones self with
  | [] => create_default_zones self
  | _ :: _ => self
  end.

Definition add_zone (zone : Zone.t) : method :=
  fun self =>
    let self' :=
      mk (dict_setitem (Zone.id zone) zone (zones self)) (zones_file self) in
    if dict_contains (Zone.id zone) (zones self)
    then (save_zones self', [zone_updated zone])
    else (save_zones self', [zone_added zone]).

Definition update_zone (zone_id : string) (updated_zone : Zone.t) : method :=
  fun self =>
    if dict_contains zone_id (zones self)
    then (save_zones
            (mk (dict_setitem zone_id updated_zone (zones self))
                (zones_file self)),
          [zone_updated updated_zone])
    else (self, []).

Definition remove_zone (zone_id : string) : method :=
  fun self =>
    if dict_contains zone_id (zones self)
    then (save_zones
            (mk (dict_delitem zone_id (zones self)) (zones_file self)),
          [zone_removed zone_id])
    else (self, []).

Definition enable_zone (zone_id : string) (enabled : bool) : method :=
  fun self =>
    if dict_contains zone_id (zones self)
    then (save_zones
            (mk (dict_set_enabled zone_id enabled (zones self))
                (zones_file self)),
          [zone_status_changed zone_id enabled])
    else (self, []).

Definition get_zones_for_bell (bell : Bell.t) (self : t) : list Zone.t :=
  filter (fun zone => Zone.enabled zone && Zone.can_play_bell zone bell)
         (dict_values (zones self)).

Definition get_enabled_zones (self : t) : list Zone.t :=
  filter Zone.enabled (dict_values (zones self)).

Definition get_all_zones (self : t) : list Zone.t :=
  dict_values (zones self).

End MultiZoneController.

(** A zones dictionary as the controller builds it from empty: every zone
    under its own id, each id once. *)
Definition keyed_by_id (d : ZoneDict) : Prop :=
  Forall (fun kv => fst kv = Zone.id (snd kv)) d /\ NoDup (map fst d).

(** * Properties *)

(** ** QTime arithmetic *)
Section QTimeFacts.

Lemma isValid_range (q : QTime.t) :
  QTime.isValid q = true <-> 0 <= QTime.mds q < 86400000.
Proof.
  unfold QTime.isValid, QTime.MSECS_PER_DAY.
  rewrite andb_true_iff, !Z.ltb_lt. lia.
Qed.

Lemma hour_range (q : QTime.t) :
  QTime.isValid q = true -> 0 <= QTime.hour q < 24.
Proof.
  intros V. unfold QTime.hour. rewrite V.
  apply isValid_range in V.
  split; [apply Z.div_pos; lia | apply Z.div_lt_upper_bound; lia].
Qed.

Lemma minute_range (q : QTime.t) :
  QTime.isValid q = true -> 0 <= QTime.minute q < 60.
Proof.
  intros V. unfold QTime.minute. rewrite V.
  pose proof (Z.mod_pos_bound (QTime.mds q) 3600000 ltac:(lia)).
  split; [apply Z.div_pos; lia | apply Z.div_lt_upper_bound; lia].
Qed.

Lemma second_range (q : QTime.t) :
  QTime.isValid q = true -> 0 <= QTime.second q < 60.
Proof.
  intros V. unfold QTime.second. rewrite V.
  apply Z.mod_pos_bound. lia.
Qed.

(** The accessors of a time that is not valid. *)
Lemma invalid_accessors (q : QTime.t) :
  QTime.isValid q = false ->
  QTime.hour q = -1 /\ QTime.minute q = -1 /\ QTime.second q = -1.
Proof.
  intros V. unfold QTime.hour, QTime.minute, QTime.second.
  rewrite V. auto.
Qed.

(** Hours, minutes and seconds of a valid time add up to its second of
    the day. *)
Lemma second_of_day (q : QTime.t) :
  QTime.isValid q = true ->
  QTime.hour q * 3600 + QTime.minute q * 60 + QTime.second q
  = QTime.mds q / 1000.
Proof.
  intros V. unfold QTime.hour, QTime.minute, QTime.second.
  rewrite V. apply isValid_range in V.
  Z.div_mod_to_equations. lia.
Qed.

Lemma hms_valid (h m s ms : Z) :
  0 <= h < 24 -> 0 <= m < 60 -> 0 <= s < 60 -> 0 <= ms < 1000 ->
  QTime.hms h m s ms = QTime.mk ((h * 3600 + m * 60 + s) * 1000 + ms).
Proof.
  intros Hh Hm Hs Hms. unfold QTime.hms.
  replace (0 <=? h) with true by (symmetry; apply Z.leb_le; lia).
  replace (h <? 24) with true by (symmetry; apply Z.ltb_lt; lia).
  replace (0 <=? m) with true by (symmetry; apply Z.leb_le; lia).
  replace (m <? 60) with true by (symmetry; apply Z.ltb_lt; lia).
  replace (0 <=? s) with true by (symmetry; apply Z.leb_le; lia).
  replace (s <? 60) with true by (symmetry; apply Z.ltb_lt; lia).
  replace (0 <=? ms) with true by (symmetry; apply Z.leb_le; lia).
  replace (ms <? 1000) with true by (symmetry; apply Z.ltb_lt; lia).
  reflexivity.
Qed.

(** The target's second of the day is a whole minute of the day, or
    [-3660] when the target is not a valid time. *)
Lemma target_secs_range (q : QTime.t) :
  let target_secs := QTime.hour q * 3600 + QTime.minute q * 60 in
  (QTime.isValid q = true /\ 0 <= target_secs <= 86340)
  \/ (QTime.isValid q = false /\ target_secs = -3660).
Proof.
  destruct (QTime.isValid q) eqn:V; [left | right]; split; auto.
  - pose proof (hour_range q V). pose proof (minute_range q V). lia.
  - destruct (invalid_accessors q V) as (-> & -> & _). reflexivity.
Qed.

Lemma hms_null_or_valid (h m s ms : Z) :
  QTime.hms h m s ms = QTime.NullTime
  \/ QTime.isValid (QTime.hms h m s ms) = true.
Proof.
  unfold QTime.hms.
  destruct (_ && _) eqn:E; [right | left; reflexivity].
  rewrite !andb_true_iff, !Z.leb_le, !Z.ltb_lt in E.
  apply isValid_range. simpl. lia.
Qed.

Lemma fromString_null_or_valid (s : string) :
  QTime.fromString s = QTime.NullTime
  \/ QTime.isValid (QTime.fromString s) = true.
Proof.
  unfold QTime.fromString.
  repeat match goal with
         | |- context [match ?x with _ => _ end] =>
             destruct x; try (left; reflexivity)
         end.
  apply hms_null_or_valid.
Qed.

End QTimeFacts.

(** ** Seconds until a time *)
Section SecondsUntil.

Import BellScheduler.

Lemma seconds_until_time_raw (current target : QTime.t) :
  let raw := (QTime.hour target * 3600 + QTime.minute target * 60)
             - (QTime.hour current * 3600 + QTime.minute current * 60
                + QTime.second current) in
  seconds_until_time current target
  = if raw <? 0 then raw + 86400 else raw.
Proof. reflexivity. Qed.

Lemma seconds_until_time_bounds (current target : QTime.t) :
  QTime.isValid current = true -> QTime.isValid target = true ->
  0 <= seconds_until_time current target < 86400.
Proof.
  intros Vc Vt. rewrite seconds_until_time_raw. cbv zeta.
  pose proof (hour_range _ Vc). pose proof (minute_range _ Vc).
  pose proof (second_range _ Vc).
  pose proof (hour_range _ Vt). pose proof (minute_range _ Vt).
  destruct (Z.ltb_spec
              (QTime.hour target * 3600 + QTime.minute target * 60
               - (QTime.hour current * 3600 + QTime.minute current * 60
                  + QTime.second current)) 0); lia.
Qed.

End SecondsUntil.

(** C2, as the code computes it.  For valid times the seconds-until value is
    [((target_minute_of_day * 60) - current_second_of_day) mod 86400]: a raw
    difference that is strictly negative is wrapped forward by 86400, a raw
    difference of 0 stays 0.  From 23:59:00 to 00:05 it is 360. *)
Theorem seconds_until_time_mod (current target : QTime.t) :
  QTime.isValid current = true -> QTime.isValid target = true ->
  let current_second_of_day :=
    QTime.hour current * 3600 + QTime.minute current * 60
    + QTime.second current in
  let target_minute_of_day := QTime.hour target * 60 + QTime.minute target in
  let raw := target_minute_of_day * 60 - current_second_of_day in
  BellScheduler.seconds_until_time current target = raw mod 86400
  /\ BellScheduler.seconds_until_time current target
     = (if raw <? 0 then raw + 86400 else raw)
  /\ (raw = 0 -> BellScheduler.seconds_until_time current target = 0)
  /\ BellScheduler.seconds_until_time
       (QTime.hms 23 59 0 0) (QTime.hm 0 5) = 360.
Proof.
  intros Vc Vt csd tmd raw.
  pose proof (seconds_until_time_bounds current target Vc Vt) as B.
  assert (E : BellScheduler.seconds_until_time current target
              = if raw <? 0 then raw + 86400 else raw).
  { rewrite seconds_until_time_raw. cbv zeta. subst raw tmd csd.
    replace ((QTime.hour target * 60 + QTime.minute target) * 60)
      with (QTime.hour target * 3600 + QTime.minute target * 60) by lia.
    reflexivity. }
  split; [| split; [| split]].
  - rewrite E in *. destruct (Z.ltb_spec raw 0).
    + apply Z.mod_unique with (q := -1); lia.
    + apply Z.mod_unique with (q := 0); lia.
  - exact E.
  - intros R. rewrite E, R. reflexivity.
  - reflexivity.
Qed.

Lemma seconds_until_time_mod_witness :
  BellScheduler.seconds_until_time (QTime.hms 9 0 1 0) (QTime.hm 9 0)
  = (-1) mod 86400.
Proof.
  apply (seconds_until_time_mod (QTime.hms 9 0 1 0) (QTime.hm 9 0));
    reflexivity.
Defined.

(** C2, as the specification words it, fails when the target is the current
    second: the code returns 0 where a wrap of every difference [<= 0] gives
    86400. *)
Lemma seconds_until_wrap_at_zero :
  BellScheduler.seconds_until_time (QTime.hms 9 0 0 0) (QTime.hm 9 0) = 0
  /\ Spec.seconds_until (QTime.hms 9 0 0 0) (QTime.hm 9 0) = 86400
  /\ BellScheduler.seconds_until_time (QTime.hms 9 0 0 0) (QTime.hm 9 0)
     <> Spec.seconds_until (QTime.hms 9 0 0 0) (QTime.hm 9 0).
Proof. split; [| split]; [reflexivity | reflexivity | discriminate]. Qed.

(** ** What the methods change *)
Section Frames.

Import BellScheduler.

Lemma PyNum_eqb_eq (a b : PyNum) : PyNum_eqb a b = true -> a = b.
Proof.
  destruct a, b; simpl; try discriminate; auto.
  intros H. apply Z.eqb_eq in H. congruence.
Qed.

Lemma Bell_eqb_eq (a b : Bell.t) : Bell.eqb a b = true <-> a = b.
Proof.
  unfold Bell.eqb. destruct (Bell.eq_dec a b); split; congruence.
Qed.

Lemma bell_ne_false (a b : option Bell.t) : bell_ne a b = false -> a = b.
Proof.
  destruct a, b; simpl; try discriminate; auto.
  intros H. apply negb_false_iff, Bell_eqb_eq in H. congruence.
Qed.

(** Whatever was cached, after [update_next_bell] the cache holds what its
    loop computed; the bells and the file are untouched. *)
Lemma update_next_bell_state (clock : Clock) (self : t) :
  let found :=
    next_loop (current_time clock) (active_bells clock self) None PInf in
  let self' := fst (update_next_bell clock self) in
  next_bell self' = fst found
  /\ seconds_to_next self' = snd found
  /\ bells self' = bells self
  /\ bells_file self' = bells_file self.
Proof.
  cbv zeta. unfold update_next_bell.
  destruct (next_loop _ _ _ _) as [nb ms].
  destruct (bell_ne nb (next_bell self)) eqn:Hb; simpl; auto.
  destruct (PyNum_eqb ms (seconds_to_next self)) eqn:Hs; simpl; auto.
  apply bell_ne_false in Hb. apply PyNum_eqb_eq in Hs. auto.
Qed.

Lemma check_bells_events (clock : Clock) (self : t) :
  snd (check_bells clock self)
  = trigger_loop clock (bells self) ++ snd (update_next_bell clock self).
Proof.
  unfold check_bells, seq_method, emit.
  destruct (update_next_bell clock self); reflexivity.
Qed.

Lemma check_bells_state (clock : Clock) (self : t) :
  fst (check_bells clock self) = fst (update_next_bell clock self).
Proof.
  unfold check_bells, seq_method, emit.
  destruct (update_next_bell clock self); reflexivity.
Qed.

Lemma check_bells_bells (clock : Clock) (self : t) :
  bells (fst (check_bells clock self)) = bells self.
Proof.
  rewrite check_bells_state. apply update_next_bell_state.
Qed.

(** The loop of [update_next_bell] returns either nothing and infinity, or
    a bell and a strictly positive number of seconds. *)
Lemma next_loop_found_ok (now : QTime.t) (active : list Bell.t) :
  forall nb ms,
    found_ok (nb, ms) -> found_ok (next_loop now active nb ms).
Proof.
  induction active as [| bell rest IH]; intros nb ms Hacc; simpl; auto.
  destruct (0 <? seconds_until_time now (Bell.time bell)) eqn:Hpos;
    simpl; auto.
  destruct (int_lt_num _ ms); auto.
  apply IH. right. exists bell, (seconds_until_time now (Bell.time bell)).
  apply Z.ltb_lt in Hpos. auto.
Qed.

Lemma update_next_bell_triggers (clock : Clock) (self : t) :
  triggered (snd (update_next_bell clock self)) = [].
Proof.
  unfold update_next_bell.
  destruct (next_loop _ _ _ _) as [nb ms].
  destruct (_ || _); simpl; [destruct nb |]; reflexivity.
Qed.

Lemma triggered_check_bells (clock : Clock) (self : t) :
  triggered (snd (check_bells clock self))
  = triggered (trigger_loop clock (bells self)).
Proof.
  rewrite check_bells_events. unfold triggered at 1.
  rewrite flat_map_app. fold (triggered (trigger_loop clock (bells self))).
  fold (triggered (snd (update_next_bell clock self))).
  rewrite update_next_bell_triggers. apply app_nil_r.
Qed.

End Frames.

(** C10.  [next_bell_changed] is only ever emitted with a bell and a
    strictly positive integer number of seconds.  When the recomputation
    finds no bell, the scheduler emits nothing and its cache holds no bell
    and infinity. *)
Theorem next_bell_changed_never_absent (clock : Clock)
    (self : BellScheduler.t) :
  let found :=
    BellScheduler.next_loop (current_time clock)
      (BellScheduler.active_bells clock self) None PInf in
  let r := BellScheduler.update_next_bell clock self in
  (forall nb secs,
      In (next_bell_changed nb secs) (snd r) ->
      exists bell z, nb = Some bell /\ secs = PInt z /\ 0 < z)
  /\ (fst found = None ->
      snd r = []
      /\ BellScheduler.next_bell (fst r) = None
      /\ BellScheduler.seconds_to_next (fst r) = PInf).
Proof.
  cbv zeta.
  pose proof (update_next_bell_state clock self) as St. cbv zeta in St.
  pose proof (next_loop_found_ok (current_time clock)
                (BellScheduler.active_bells clock self) None PInf
                (or_introl (conj eq_refl eq_refl))) as Hf.
  unfold BellScheduler.update_next_bell in *.
  destruct (BellScheduler.next_loop _ _ _ _) as [nb ms]. simpl in *.
  split.
  - intros nb' secs Hin.
    destruct (_ || _); simpl in Hin; [| contradiction].
    destruct nb as [bell |]; simpl in Hin; [| contradiction].
    destruct Hin as [Heq | []]. inversion Heq; subst.
    destruct Hf as [[Hn _] | (b & z & Hb & Hz & Hpos)]; [discriminate |].
    simpl in *. eauto.
  - intros ->.
    destruct Hf as [[_ Hinf] | (b & z & Hb & _)]; [| discriminate].
    simpl in Hinf. subst ms.
    destruct St as (S1 & S2 & _).
    destruct (_ || _); simpl in *; auto.
Qed.

Lemma next_bell_changed_never_absent_witness :
  let self :=
    fst (BellScheduler.init (mkClock (QTime.hms 8 0 0 0) "Friday") Missing) in
  let r :=
    BellScheduler.update_next_bell
      (mkClock (QTime.hms 0 0 0 0) "Saturday") self in
  option_map Bell.name (BellScheduler.next_bell self) = Some "School Start"
  /\ snd r = []
  /\ BellScheduler.next_bell (fst r) = None
  /\ BellScheduler.seconds_to_next (fst r) = PInf.
Proof.
  cbv zeta. split; [reflexivity |].
  apply (next_bell_changed_never_absent
           (mkClock (QTime.hms 0 0 0 0) "Saturday")
           (fst (BellScheduler.init
                   (mkClock (QTime.hms 8 0 0 0) "Friday") Missing))).
  vm_compute. reflexivity.
Defined.

(** ** The default schedule *)

(** C7.  The seeded schedule is the seven bells School Start 09:00,
    Period 1 10:30, Break 11:20, Period 2 11:35, Lunch 12:25, Period 3 13:10
    and End of Day 14:00, each Monday to Friday and enabled.  Polled on a
    Wednesday at 09:00:00, whatever was cached before, the scheduler triggers
    School Start alone and holds Period 1 as next bell, 5400 seconds away. *)
Theorem default_schedule_wednesday_nine (self : BellScheduler.t) :
  let seeded := fst (BellScheduler.create_default_bells self) in
  map (fun b => (Bell.name b, QTime.toString (Bell.time b)))
      (BellScheduler.bells seeded)
  = [ ("School Start", "09:00"); ("Period 1", "10:30"); ("Break", "11:20");
      ("Period 2", "11:35"); ("Lunch", "12:25"); ("Period 3", "13:10");
      ("End of Day", "14:00") ]
  /\ Forall (fun b => Bell.days b = weekdays /\ Bell.enabled b = true)
            (BellScheduler.bells seeded)
  /\ BellScheduler.bells_file seeded
     = Records (map Bell.to_dict (BellScheduler.bells seeded))
  /\ let r := BellScheduler.check_bells
                (mkClock (QTime.hms 9 0 0 0) "Wednesday") seeded in
     triggered (snd r) = [Bell.new "School Start" (QTime.hm 9 0)]
     /\ BellScheduler.next_bell (fst r)
        = Some (Bell.new "Period 1" (QTime.hm 10 30))
     /\ BellScheduler.seconds_to_next (fst r) = PInt 5400.
Proof.
  cbv zeta.
  split; [reflexivity |].
  split; [repeat constructor |].
  split; [reflexivity |].
  set (clock := mkClock (QTime.hms 9 0 0 0) "Wednesday").
  set (seeded := fst (BellScheduler.create_default_bells self)).
  assert (Hb : BellScheduler.bells seeded = BellScheduler.default_bells)
    by reflexivity.
  pose proof (update_next_bell_state clock seeded) as (S1 & S2 & _).
  rewrite check_bells_state, triggered_check_bells, S1, S2.
  unfold BellScheduler.active_bells. rewrite Hb.
  split; [| split]; reflexivity.
Qed.

(** ** Construction and loading of bells *)
Section Construction.

Lemma init_days (name : string) (time : QTime.t) (sound : string)
    (days : option (list string)) (category color : string) (volume : Z)
    (enabled : bool) (icon tts_message : option string)
    (repeat urgent silent : bool) :
  let b := Bell.init name time sound days category color volume enabled
             icon tts_message repeat urgent silent in
  Bell.days b <> []
  /\ (days = None \/ days = Some [] -> Bell.days b = weekdays)
  /\ (forall d ds, days = Some (d :: ds) -> Bell.days b = d :: ds).
Proof.
  cbv zeta. simpl.
  destruct days as [[| d ds] |];
    (split; [unfold weekdays; discriminate |];
     split;
     [ intros [H | H]; try discriminate; reflexivity
     | intros d' ds' H; try discriminate; congruence ]).
Qed.

Lemma init_constructed (name : string) (time : QTime.t) (sound : string)
    (days : option (list string)) (category color : string) (volume : Z)
    (enabled : bool) (icon tts_message : option string)
    (repeat urgent silent : bool) :
  Bell.constructed
    (Bell.init name time sound days category color volume enabled
       icon tts_message repeat urgent silent).
Proof.
  split; [reflexivity |]. apply init_days.
Qed.

(** [from_dict] succeeds exactly on the records that have a time and a
    name, and then it is one call of the constructor. *)
Lemma from_dict_Ok (data : BellData) (b : Bell.t) :
  Bell.from_dict data = Ok b ->
  exists name time_str,
    k_name data = Some name /\ k_time data = Some time_str
    /\ b = Bell.init name (QTime.fromString time_str)
             (dict_get (k_sound data) "default.mp3")
             (Some (dict_get (k_days data) weekdays))
             (dict_get (k_category data) "Default")
             (dict_get (k_color data) "#00a0ff")
             (dict_get (k_volume data) 100)
             (dict_get (k_enabled data) true)
             (dict_get (k_icon data) None)
             (dict_get (k_tts_message data) None)
             (dict_get (k_repeat data) false)
             (dict_get (k_urgent data) false)
             (dict_get (k_silent data) false).
Proof.
  unfold Bell.from_dict.
  destruct (k_time data) as [ts |]; simpl; [| discriminate].
  destruct (k_name data) as [n |]; simpl; [| discriminate].
  intros H. inversion H. eauto.
Qed.

Lemma from_dict_Raise (data : BellData) :
  k_name data = None \/ k_time data = None ->
  exists e, Bell.from_dict data = Raise e.
Proof.
  unfold Bell.from_dict.
  destruct (k_time data); simpl; [| eauto].
  destruct (k_name data); simpl; [| eauto].
  intros [H | H]; discriminate.
Qed.

Lemma from_dict_constructed (data : BellData) (b : Bell.t) :
  Bell.from_dict data = Ok b -> Bell.constructed b.
Proof.
  intros H. apply from_dict_Ok in H as (n & ts & _ & _ & ->).
  apply init_constructed.
Qed.

Lemma comprehension_Ok {A B : Type} (f : A -> result B) (l : list A) :
  forall ys, comprehension f l = Ok ys -> Forall2 (fun x y => f x = Ok y) l ys.
Proof.
  induction l as [| x rest IH]; simpl; intros ys H.
  - inversion H. constructor.
  - destruct (f x) as [y |] eqn:Hx; [| discriminate].
    destruct (comprehension f rest) as [ys' |]; [| discriminate].
    inversion H. constructor; auto.
Qed.

Lemma comprehension_map {A B C : Type} (f : A -> result B) (h : C -> A)
    (g : C -> B) (l : list C) :
  Forall (fun x => f (h x) = Ok (g x)) l ->
  comprehension f (map h l) = Ok (map g l).
Proof.
  induction 1 as [| x rest Hx _ IH]; simpl; [reflexivity |].
  rewrite Hx, IH. reflexivity.
Qed.

Lemma comprehension_Raise {A B : Type} (f : A -> result B) (l : list A) :
  Exists (fun x => exists e, f x = Raise e) l ->
  exists e, comprehension f l = Raise e.
Proof.
  induction 1 as [x rest [e Hx] | x rest _ IH]; simpl.
  - rewrite Hx. eauto.
  - destruct (f x); [| eauto].
    destruct IH as [e ->]. eauto.
Qed.

Lemma default_bells_constructed :
  Forall Bell.constructed BellScheduler.default_bells.
Proof. repeat constructor; discriminate. Qed.

(** The bells a load leaves in memory: the decoded records when every one
    decodes, the default schedule otherwise. *)
Lemma load_bells_bells (clock : Clock) (self : BellScheduler.t) :
  BellScheduler.bells (fst (BellScheduler.load_bells clock self))
  = match BellScheduler.bells_file self with
    | Records bells_data =>
        match comprehension Bell.from_dict bells_data with
        | Ok bs => bs
        | Raise _ => BellScheduler.default_bells
        end
    | _ => BellScheduler.default_bells
    end.
Proof.
  unfold BellScheduler.load_bells, BellScheduler.seq_method.
  destruct (BellScheduler.bells_file self) as [| | bells_data];
    [| | destruct (comprehension Bell.from_dict bells_data) as [bs | e]];
    match goal with
    | |- context [let (_, _) := ?m self in _] =>
        destruct (m self) as [s1 e1] eqn:E1;
        pose proof (update_next_bell_state clock s1) as (_ & _ & Hb & _);
        destruct (BellScheduler.update_next_bell clock s1) as [s2 e2];
        simpl in *; rewrite Hb; inversion E1; reflexivity
    end.
Qed.

End Construction.

(** C9.  A bell built by the constructor, decoded by [from_dict] or left in
    memory by a load never has an empty day list: days that are absent or
    empty are replaced by Monday to Friday. *)
Theorem days_never_empty :
  (forall name time sound days category color volume enabled icon
          tts_message repeat urgent silent,
      let b := Bell.init name time sound days category color volume enabled
                 icon tts_message repeat urgent silent in
      Bell.days b <> []
      /\ (days = None \/ days = Some [] -> Bell.days b = weekdays))
  /\ (forall data b,
         Bell.from_dict data = Ok b ->
         Bell.days b <> []
         /\ (k_days data = None \/ k_days data = Some [] ->
             Bell.days b = weekdays))
  /\ (forall clock self,
         Forall (fun b => Bell.days b <> [])
                (BellScheduler.bells
                   (fst (BellScheduler.load_bells clock self)))).
Proof.
  split; [| split].
  - intros. subst b. split; apply init_days.
  - intros data b H. split.
    + apply (from_dict_constructed data b H).
    + apply from_dict_Ok in H as (n & ts & _ & _ & ->).
      intros Hd. unfold Bell.init, Bell.days.
      destruct Hd as [-> | ->]; reflexivity.
  - intros clock self. rewrite load_bells_bells.
    assert (Hd : Forall (fun b => Bell.days b <> [])
                        BellScheduler.default_bells).
    { eapply Forall_impl; [| apply default_bells_constructed].
      intros b [_ H]. exact H. }
    destruct (BellScheduler.bells_file self) as [| | bells_data]; auto.
    destruct (comprehension Bell.from_dict bells_data) as [bs | e] eqn:E;
      auto.
    apply comprehension_Ok in E.
    induction E as [| d b ds bs Hdb _ IH]; constructor; auto.
    apply (from_dict_constructed d b Hdb).
Qed.

Lemma days_never_empty_witness :
  exists b,
    Bell.from_dict Sample.record_no_days = Ok b
    /\ Bell.days b <> [] /\ Bell.days b = weekdays.
Proof.
  eexists. split; [reflexivity |].
  destruct (proj1 (proj2 days_never_empty) Sample.record_no_days _ eq_refl)
    as [H1 H2].
  split; [exact H1 | apply H2; right; reflexivity].
Defined.

(** ** Loading records that are malformed *)

(** C4, as the specification words it, fails: one record without a time
    makes the load drop the well-formed records next to it and seed the
    default schedule instead. *)
Lemma missing_key_abandons_load :
  let file :=
    Records [Bell.to_dict Sample.assembly; Sample.record_without_time;
             Bell.to_dict Sample.recess] in
  let loaded :=
    BellScheduler.bells
      (fst (BellScheduler.init Sample.monday_morning file)) in
  Bell.from_dict (Bell.to_dict Sample.assembly) = Ok Sample.assembly
  /\ ~ In Sample.assembly loaded
  /\ ~ In Sample.recess loaded
  /\ loaded = BellScheduler.default_bells.
Proof.
  cbv zeta. split; [reflexivity |].
  assert (E : BellScheduler.bells
                (fst (BellScheduler.init Sample.monday_morning
                        (Records [Bell.to_dict Sample.assembly;
                                  Sample.record_without_time;
                                  Bell.to_dict Sample.recess])))
              = BellScheduler.default_bells) by reflexivity.
  rewrite E.
  split; [| split; [| reflexivity]];
    intros H; simpl in H;
    repeat (destruct H as [H | H]; [discriminate H |]); exact H.
Qed.

Section Trigger.

Import BellScheduler.

(** A bell whose time is not valid is never triggered. *)
Lemma invalid_time_never_triggers (clock : Clock) (bell : Bell.t) :
  QTime.isValid (Bell.time bell) = false ->
  QTime.isValid (current_time clock) = true ->
  trigger_loop clock [bell] = [].
Proof.
  intros Vb Vc. simpl.
  destruct (negb (Bell.enabled bell)); auto.
  destruct (negb (py_in _ _)); auto.
  destruct (invalid_accessors _ Vb) as (-> & _).
  pose proof (hour_range _ Vc) as Hh.
  replace (-1 =? QTime.hour (current_time clock)) with false; auto.
  symmetry. apply Z.eqb_neq. lia.
Qed.

End Trigger.

(** C4, as the code behaves.  When every record of the file has a name and
    a time, each record is loaded, in order, whatever its time string: a time
    that does not parse becomes the null time, and such a bell is never
    triggered.  When some record lacks its name or its time, the load keeps
    none of the records and seeds the default schedule. *)
Theorem load_bells_malformed_records (clock : Clock)
    (self : BellScheduler.t) (bells_data : list BellData) :
  BellScheduler.bells_file self = Records bells_data ->
  let loaded :=
    BellScheduler.bells (fst (BellScheduler.load_bells clock self)) in
  (Forall (fun d => k_name d <> None /\ k_time d <> None) bells_data ->
   Forall2 (fun d b =>
              Bell.from_dict d = Ok b
              /\ k_name d = Some (Bell.name b)
              /\ exists time_str,
                   k_time d = Some time_str
                   /\ Bell.time b = QTime.fromString time_str
                   /\ (QTime.isValid (QTime.fromString time_str) = false ->
                       Bell.time b = QTime.NullTime
                       /\ forall now,
                            QTime.isValid (current_time now) = true ->
                            BellScheduler.trigger_loop now [b] = []))
           bells_data loaded)
  /\ (Exists (fun d => k_name d = None \/ k_time d = None) bells_data ->
      loaded = BellScheduler.default_bells).
Proof.
  intros Hfile loaded. subst loaded.
  rewrite load_bells_bells, Hfile. clear Hfile. split.
  - intros Hall.
    destruct (comprehension Bell.from_dict bells_data) as [bs | e] eqn:E.
    + apply comprehension_Ok in E. clear Hall.
      induction E as [| d b ds bs Hdb _ IH]; constructor; [| exact IH].
      split; [exact Hdb |].
      apply from_dict_Ok in Hdb as (n & ts & Hn & Ht & ->).
      split; [exact Hn |]. exists ts. split; [exact Ht |].
      split; [reflexivity |]. intros Hinv. split.
      * simpl. destruct (fromString_null_or_valid ts) as [H | H]; congruence.
      * intros now Vn. apply invalid_time_never_triggers; auto.
    + exfalso. revert e E.
      induction Hall as [| d ds [Hn Ht] _ IH]; simpl; intros e E;
        [discriminate E |].
      destruct (k_time d) as [ts |] eqn:Kt; [| congruence].
      destruct (k_name d) as [n |] eqn:Kn; [| congruence].
      assert (Hd : exists b, Bell.from_dict d = Ok b)
        by (unfold Bell.from_dict; rewrite Kt, Kn; simpl; eauto).
      destruct Hd as [b Hd]. rewrite Hd in E.
      destruct (comprehension Bell.from_dict ds) as [bs | e'];
        [discriminate E |].
      eapply IH; reflexivity.
  - intros Hex.
    destruct (comprehension_Raise Bell.from_dict bells_data) as [e ->]; auto.
    eapply Exists_impl; [| exact Hex].
    intros d Hd. apply from_dict_Raise; exact Hd.
Qed.

Lemma load_bells_malformed_records_witness :
  let file :=
    [Bell.to_dict Sample.assembly; Sample.record_bad_time;
     Bell.to_dict Sample.recess] in
  let self := BellScheduler.mk [] None (PInt 0) (Records file) in
  exists late,
    BellScheduler.bells
      (fst (BellScheduler.load_bells Sample.monday_morning self))
    = [Sample.assembly; late; Sample.recess]
    /\ Bell.time late = QTime.NullTime
    /\ Forall2 (fun d b => Bell.from_dict d = Ok b) file
         (BellScheduler.bells
            (fst (BellScheduler.load_bells Sample.monday_morning self))).
Proof.
  cbv zeta. eexists. split; [reflexivity |]. split; [reflexivity |].
  eapply Forall2_impl;
    [| apply (load_bells_malformed_records Sample.monday_morning
                (BellScheduler.mk [] None (PInt 0)
                   (Records [Bell.to_dict Sample.assembly;
                             Sample.record_bad_time;
                             Bell.to_dict Sample.recess]))
                _ eq_refl);
       repeat constructor; discriminate].
  intros d b H. apply H.
Defined.

(** ** Saving and loading *)
Section RoundTrip.

Lemma digit_val_digit (d : Z) :
  0 <= d <= 9 -> QTime.digit_val (QTime.digit d) = Some d.
Proof.
  intros H.
  assert (C : d = 0 \/ d = 1 \/ d = 2 \/ d = 3 \/ d = 4 \/ d = 5
              \/ d = 6 \/ d = 7 \/ d = 8 \/ d = 9) by lia.
  repeat (destruct C as [-> | C]; [reflexivity |]).
  subst d. reflexivity.
Qed.

Lemma fromString_two_digits (h m : Z) :
  0 <= h < 24 -> 0 <= m < 60 ->
  QTime.fromString (QTime.two_digits h ++ ":" ++ QTime.two_digits m)%string
  = QTime.hm h m.
Proof.
  intros Hh Hm. unfold QTime.two_digits. cbn [String.append].
  unfold QTime.fromString.
  rewrite !digit_val_digit by (Z.div_mod_to_equations; lia).
  cbn [Ascii.eqb Bool.eqb].
  f_equal; Z.div_mod_to_equations; lia.
Qed.

Lemma hm_accessors (h m : Z) :
  0 <= h < 24 -> 0 <= m < 60 ->
  QTime.isValid (QTime.hm h m) = true
  /\ QTime.hour (QTime.hm h m) = h
  /\ QTime.minute (QTime.hm h m) = m
  /\ QTime.second (QTime.hm h m) = 0.
Proof.
  intros Hh Hm. unfold QTime.hm.
  rewrite hms_valid by lia.
  assert (V : QTime.isValid
                (QTime.mk ((h * 3600 + m * 60 + 0) * 1000 + 0)) = true)
    by (apply isValid_range; simpl; lia).
  unfold QTime.hour, QTime.minute, QTime.second. rewrite V. simpl.
  repeat split; Z.div_mod_to_equations; lia.
Qed.

Lemma fromString_toString (q : QTime.t) :
  QTime.fromString (QTime.toString q) = QTime.to_minute q.
Proof.
  unfold QTime.toString, QTime.to_minute.
  destruct (QTime.isValid q) eqn:V; [| reflexivity].
  apply fromString_two_digits; [apply hour_range | apply minute_range];
    exact V.
Qed.

Lemma toString_to_minute (q : QTime.t) :
  QTime.toString (QTime.to_minute q) = QTime.toString q.
Proof.
  unfold QTime.to_minute.
  destruct (QTime.isValid q) eqn:V.
  - destruct (hm_accessors _ _ (hour_range q V) (minute_range q V))
      as (V' & Hh & Hm & _).
    unfold QTime.toString. rewrite V, V', Hh, Hm. reflexivity.
  - unfold QTime.toString. rewrite V. reflexivity.
Qed.

(** A time with neither seconds nor milliseconds, and the null time, are
    their own reduction to the minute. *)
Lemma to_minute_fixed (q : QTime.t) :
  q = QTime.NullTime
  \/ (QTime.isValid q = true /\ QTime.mds q mod 60000 = 0) ->
  QTime.to_minute q = q.
Proof.
  intros [-> | [V Hz]]; [reflexivity |].
  unfold QTime.to_minute. rewrite V. unfold QTime.hm.
  rewrite hms_valid by (try apply hour_range; try apply minute_range;
                        auto; lia).
  unfold QTime.hour, QTime.minute. rewrite V.
  destruct q as [z]. simpl in *. f_equal.
  apply isValid_range in V. simpl in V.
  Z.div_mod_to_equations. lia.
Qed.

(** One bell through [to_dict] and [from_dict]: every attribute comes back
    but the seconds of the time. *)
Lemma from_dict_to_dict (b : Bell.t) :
  Bell.constructed b ->
  Bell.from_dict (Bell.to_dict b) = Ok (Bell.on_the_minute b).
Proof.
  intros [Hid Hdays]. destruct b; simpl in *.
  unfold Bell.from_dict, Bell.to_dict, Bell.on_the_minute, Bell.init.
  simpl. rewrite fromString_toString, toString_to_minute.
  destruct days as [| d ds]; [congruence |].
  subst id. reflexivity.
Qed.

Lemma save_bells_state (self : BellScheduler.t) :
  fst (BellScheduler.save_bells self)
  = BellScheduler.mk (BellScheduler.bells self)
      (BellScheduler.next_bell self) (BellScheduler.seconds_to_next self)
      (Records (map Bell.to_dict (BellScheduler.bells self))).
Proof. reflexivity. Qed.

End RoundTrip.

(** C3, as the specification words it, fails for a bell whose time carries
    seconds: the file keeps hours and minutes only, so the reloaded bell
    differs from the saved one in its time. *)
Lemma round_trip_drops_seconds :
  let self := BellScheduler.mk [Sample.exam] None (PInt 0) Missing in
  let reloaded :=
    BellScheduler.bells
      (fst (BellScheduler.load_bells Sample.monday_morning
              (fst (BellScheduler.save_bells self)))) in
  reloaded <> BellScheduler.bells self
  /\ map Bell.time reloaded = [QTime.hms 9 0 0 0]
  /\ map Bell.time (BellScheduler.bells self) = [QTime.hms 9 0 30 0].
Proof.
  cbv zeta. split; [| split; reflexivity].
  intros H. vm_compute in H. discriminate H.
Qed.

(** C3, as the code behaves.  For bells as the constructor builds them,
    saving and loading back yields the same bells in the same order, equal in
    every attribute except that each time is reduced to its hour and minute;
    the ids are unchanged; and when no time carries seconds the reloaded
    list is the saved one. *)
Theorem save_load_round_trip (clock : Clock) (self : BellScheduler.t) :
  Forall Bell.constructed (BellScheduler.bells self) ->
  let reloaded :=
    BellScheduler.bells
      (fst (BellScheduler.load_bells clock
              (fst (BellScheduler.save_bells self)))) in
  reloaded = map Bell.on_the_minute (BellScheduler.bells self)
  /\ map Bell.id reloaded = map Bell.id (BellScheduler.bells self)
  /\ (Forall (fun b => QTime.to_minute (Bell.time b) = Bell.time b)
             (BellScheduler.bells self) ->
      reloaded = BellScheduler.bells self).
Proof.
  intros Hc reloaded.
  assert (E : reloaded = map Bell.on_the_minute (BellScheduler.bells self)).
  { subst reloaded. rewrite load_bells_bells, save_bells_state.
    cbn [BellScheduler.bells_file].
    rewrite (comprehension_map _ _ Bell.on_the_minute); [reflexivity |].
    eapply Forall_impl; [| exact Hc].
    intros b Hb. apply from_dict_to_dict; exact Hb. }
  rewrite E. split; [reflexivity |]. split.
  - rewrite map_map. reflexivity.
  - intros Hm. rewrite <- (map_id (BellScheduler.bells self)) at 2.
    apply map_ext_in. intros b Hb.
    rewrite Forall_forall in Hm. specialize (Hm b Hb).
    destruct b; unfold Bell.on_the_minute; simpl in *. rewrite Hm.
    reflexivity.
Qed.

Lemma save_load_round_trip_witness :
  let self :=
    BellScheduler.mk [Sample.assembly; Sample.recess; Sample.chime]
      None (PInt 0) Missing in
  BellScheduler.bells
    (fst (BellScheduler.load_bells Sample.monday_morning
            (fst (BellScheduler.save_bells self))))
  = BellScheduler.bells self.
Proof.
  cbv zeta.
  apply (save_load_round_trip Sample.monday_morning
           (BellScheduler.mk [Sample.assembly; Sample.recess; Sample.chime]
              None (PInt 0) Missing)).
  - repeat constructor; discriminate.
  - repeat constructor.
Defined.

(** ** Mutations *)
Section Mutations.

Import BellScheduler.

(** [add_bell], [update_bell] and [remove_bell] share one shape: change the
    list, save, recompute the next bell, announce. *)
Lemma mutation_state (clock : Clock) (f : list Bell.t -> list Bell.t)
    (self : t) :
  let r := ((fun self => set_bells (f (bells self)) self)
            ;; save_bells ;; update_next_bell clock ;; emit [bell_updated])
             self in
  bells (fst r) = f (bells self)
  /\ bells_file (fst r) = Records (map Bell.to_dict (f (bells self)))
  /\ exists ev, snd r = ev ++ [bell_updated]
                /\ forall b, ~ In (bell_triggered b) ev.
Proof.
  cbv zeta. unfold seq_method, set_bells, save_bells, emit.
  match goal with
  | |- context [update_next_bell clock ?s] =>
      pose proof (update_next_bell_state clock s) as (_ & _ & Hb & Hf);
      pose proof (update_next_bell_triggers clock s) as Ht;
      destruct (update_next_bell clock s) as [s2 e2]
  end.
  simpl in *. rewrite Hb, Hf. repeat split.
  exists e2. split; [reflexivity |].
  intros b Hin. clear - Ht Hin.
  induction e2 as [| e ev IH]; [contradiction |].
  destruct Hin as [-> | Hin]; [discriminate Ht |].
  destruct e; simpl in Ht; try discriminate Ht; auto.
Qed.

Lemma update_loop_first (bell_id : string) (updated : Bell.t)
    (pre post : list Bell.t) (b : Bell.t) :
  Forall (fun x => Bell.id x <> bell_id) pre -> Bell.id b = bell_id ->
  update_loop bell_id updated (pre ++ b :: post) = pre ++ updated :: post.
Proof.
  intros Hpre Hb. induction Hpre as [| x pre Hx _ IH]; simpl.
  - rewrite (proj2 (String.eqb_eq _ _) Hb). reflexivity.
  - rewrite (proj2 (String.eqb_neq _ _) Hx), IH. reflexivity.
Qed.

Lemma update_loop_unknown (bell_id : string) (updated : Bell.t)
    (bs : list Bell.t) :
  Forall (fun x => Bell.id x <> bell_id) bs ->
  update_loop bell_id updated bs = bs.
Proof.
  induction 1 as [| x bs Hx _ IH]; simpl; [reflexivity |].
  rewrite (proj2 (String.eqb_neq _ _) Hx), IH. reflexivity.
Qed.

Lemma filter_unknown (bell_id : string) (bs : list Bell.t) :
  Forall (fun x => Bell.id x <> bell_id) bs ->
  filter (fun bell => negb (String.eqb (Bell.id bell) bell_id)) bs = bs.
Proof.
  induction 1 as [| x bs Hx _ IH]; simpl; [reflexivity |].
  rewrite (proj2 (String.eqb_neq _ _) Hx), IH. reflexivity.
Qed.

Lemma filter_removes_all (bell_id : string) (bs : list Bell.t) :
  Forall (fun x => Bell.id x <> bell_id)
         (filter (fun bell => negb (String.eqb (Bell.id bell) bell_id)) bs).
Proof.
  apply Forall_forall. intros x Hx. apply filter_In in Hx as [_ Hx].
  apply negb_true_iff, String.eqb_neq in Hx. exact Hx.
Qed.

End Mutations.

(** C5, as the specification words it, fails for [remove]: with two bells
    of one id in the list, removing the id deletes both, where a removal of
    the first match would keep the second. *)
Lemma remove_deletes_later_duplicates :
  let self :=
    BellScheduler.mk [Sample.chime; Sample.assembly; Sample.chime_loud]
      None (PInt 0) Missing in
  let after :=
    BellScheduler.bells
      (fst (BellScheduler.remove_bell Sample.monday_morning
              "Chime-12:00" self)) in
  Bell.id Sample.chime = "Chime-12:00"
  /\ Bell.id Sample.chime_loud = "Chime-12:00"
  /\ after = [Sample.assembly]
  /\ Spec.remove_first "Chime-12:00" (BellScheduler.bells self)
     = [Sample.assembly; Sample.chime_loud]
  /\ after <> Spec.remove_first "Chime-12:00" (BellScheduler.bells self).
Proof.
  cbv zeta.
  split; [reflexivity |]. split; [reflexivity |].
  split; [reflexivity |]. split; [reflexivity |].
  intros H. vm_compute in H. discriminate H.
Qed.

(** C5, as the code behaves.  With the first bell of the given id at some
    place in the list, [update] replaces that bell and leaves every other
    bell, later duplicates included, where it was; [remove] deletes that bell
    and every later bell of the same id, so that no bell of the id is
    left. *)
Theorem update_first_remove_all (clock : Clock) (self : BellScheduler.t)
    (bell_id : string) (updated_bell b : Bell.t) (pre post : list Bell.t) :
  BellScheduler.bells self = pre ++ b :: post ->
  Forall (fun x => Bell.id x <> bell_id) pre ->
  Bell.id b = bell_id ->
  BellScheduler.bells
    (fst (BellScheduler.update_bell clock bell_id updated_bell self))
  = pre ++ updated_bell :: post
  /\ BellScheduler.bells
       (fst (BellScheduler.remove_bell clock bell_id self))
     = pre ++ filter (fun x => negb (String.eqb (Bell.id x) bell_id)) post
  /\ Forall (fun x => Bell.id x <> bell_id)
            (BellScheduler.bells
               (fst (BellScheduler.remove_bell clock bell_id self))).
Proof.
  intros Hl Hpre Hb.
  destruct (mutation_state clock
              (BellScheduler.update_loop bell_id updated_bell) self)
    as (Hu & _).
  destruct (mutation_state clock
              (filter (fun x => negb (String.eqb (Bell.id x) bell_id))) self)
    as (Hr & _).
  change (BellScheduler.bells
            (fst (BellScheduler.update_bell clock bell_id updated_bell self))
          = BellScheduler.update_loop bell_id updated_bell
              (BellScheduler.bells self)) in Hu.
  change (BellScheduler.bells
            (fst (BellScheduler.remove_bell clock bell_id self))
          = filter (fun x => negb (String.eqb (Bell.id x) bell_id))
              (BellScheduler.bells self)) in Hr.
  rewrite Hu, Hr, Hl. split; [| split].
  - apply update_loop_first; assumption.
  - rewrite filter_app, (filter_unknown bell_id pre Hpre). simpl.
    rewrite (proj2 (String.eqb_eq _ _) Hb). reflexivity.
  - apply filter_removes_all.
Qed.

Lemma update_first_remove_all_witness :
  let self :=
    BellScheduler.mk [Sample.assembly; Sample.chime; Sample.chime_loud]
      None (PInt 0) Missing in
  BellScheduler.bells
    (fst (BellScheduler.update_bell Sample.monday_morning "Chime-12:00"
            Sample.recess self))
  = [Sample.assembly; Sample.recess; Sample.chime_loud]
  /\ BellScheduler.bells
       (fst (BellScheduler.remove_bell Sample.monday_morning "Chime-12:00"
               self))
     = [Sample.assembly].
Proof.
  cbv zeta.
  destruct (update_first_remove_all Sample.monday_morning
              (BellScheduler.mk
                 [Sample.assembly; Sample.chime; Sample.chime_loud]
                 None (PInt 0) Missing)
              "Chime-12:00" Sample.recess Sample.chime
              [Sample.assembly] [Sample.chime_loud] eq_refl)
    as (Hu & Hr & _).
  - repeat constructor. discriminate.
  - reflexivity.
  - split; [exact Hu | exact Hr].
Defined.

(** C6.  Removing an id that no bell has leaves the list in memory as it
    was; what is written to the file is the content of that same list, so a
    file that mirrored the list before the call is unchanged; the schedule
    update is still announced. *)
Theorem remove_unknown_id (clock : Clock) (self : BellScheduler.t)
    (bell_id : string) :
  Forall (fun b => Bell.id b <> bell_id) (BellScheduler.bells self) ->
  let r := BellScheduler.remove_bell clock bell_id self in
  BellScheduler.bells (fst r) = BellScheduler.bells self
  /\ BellScheduler.bells_file (fst r)
     = Records (map Bell.to_dict (BellScheduler.bells self))
  /\ (BellScheduler.bells_file self
      = Records (map Bell.to_dict (BellScheduler.bells self)) ->
      BellScheduler.bells_file (fst r) = BellScheduler.bells_file self)
  /\ In bell_updated (snd r).
Proof.
  intros Hid r.
  destruct (mutation_state clock
              (filter (fun x => negb (String.eqb (Bell.id x) bell_id))) self)
    as (Hb & Hf & ev & He & _).
  fold (BellScheduler.remove_bell clock bell_id) in Hb, Hf, He.
  fold r in Hb, Hf, He.
  rewrite (filter_unknown bell_id _ Hid) in Hb, Hf.
  split; [exact Hb |]. split; [exact Hf |]. split.
  - intros Hsync. congruence.
  - rewrite He. apply in_or_app. right. left. reflexivity.
Qed.

Lemma remove_unknown_id_witness :
  let self :=
    fst (BellScheduler.init Sample.monday_morning Missing) in
  let r := BellScheduler.remove_bell Sample.monday_morning "Nobody-00:00"
             self in
  BellScheduler.bells (fst r) = BellScheduler.default_bells
  /\ BellScheduler.bells_file (fst r) = BellScheduler.bells_file self.
Proof.
  cbv zeta.
  destruct (remove_unknown_id Sample.monday_morning
              (fst (BellScheduler.init Sample.monday_morning Missing))
              "Nobody-00:00") as (Hb & _ & Hf & _).
  - repeat constructor; discriminate.
  - split; [exact Hb | apply Hf; reflexivity].
Defined.

(** ** Polling across a day *)
Section Day.

Import BellScheduler.

Variable day : string.

Lemma tick_accessors (k : Z) :
  0 <= k < 86400 ->
  QTime.isValid (current_time (tick day k)) = true
  /\ QTime.hour (current_time (tick day k)) = k / 3600
  /\ QTime.minute (current_time (tick day k)) = (k mod 3600) / 60
  /\ QTime.second (current_time (tick day k)) = k mod 60.
Proof.
  intros Hk.
  assert (V : QTime.isValid (current_time (tick day k)) = true)
    by (apply isValid_range; simpl; lia).
  unfold QTime.hour, QTime.minute, QTime.second. rewrite V. simpl.
  repeat split; Z.div_mod_to_equations; lia.
Qed.

(** The test of [check_bells] on a due bell holds at one second of the
    day: second 0 of the bell's minute. *)
Lemma time_matches_iff (bell : Bell.t) (k : Z) :
  QTime.isValid (Bell.time bell) = true -> 0 <= k < 86400 ->
  (QTime.hour (Bell.time bell) =? QTime.hour (current_time (tick day k)))
  && (QTime.minute (Bell.time bell)
      =? QTime.minute (current_time (tick day k)))
  && (QTime.second (current_time (tick day k)) =? 0)
  = (k =? QTime.hour (Bell.time bell) * 3600
          + QTime.minute (Bell.time bell) * 60).
Proof.
  intros V Hk.
  destruct (tick_accessors k Hk) as (_ & -> & -> & ->).
  pose proof (hour_range _ V) as Hh. pose proof (minute_range _ V) as Hm.
  apply eq_true_iff_eq.
  rewrite !andb_true_iff, !Z.eqb_eq.
  Z.div_mod_to_equations. lia.
Qed.

(** The triggers of one poll that carry a given due bell: one for each
    place the bell has in the list, at the bell's second, none at any
    other second. *)
Lemma trigger_loop_of (bell : Bell.t) (k : Z) (bs : list Bell.t) :
  Bell.enabled bell = true ->
  py_in day (Bell.days bell) = true ->
  QTime.isValid (Bell.time bell) = true ->
  0 <= k < 86400 ->
  filter (is_trigger_of bell) (map (pair k) (trigger_loop (tick day k) bs))
  = if k =? QTime.hour (Bell.time bell) * 3600
            + QTime.minute (Bell.time bell) * 60
    then repeat (k, bell_triggered bell) (count_occ Bell.eq_dec bs bell)
    else [].
Proof.
  intros He Hd V Hk.
  induction bs as [| x rest IH].
  - simpl. destruct (_ =? _); reflexivity.
  - cbn [trigger_loop count_occ].
    change (current_day (tick day k)) with day.
    destruct (Bell.eq_dec x bell) as [-> | Hne].
    + rewrite He, Hd. cbn [negb]. rewrite (time_matches_iff bell k V Hk).
      destruct (k =? _) eqn:E.
      * cbn [map filter]. unfold is_trigger_of at 1. cbn [snd].
        rewrite (proj2 (Bell_eqb_eq bell bell) eq_refl).
        rewrite IH. reflexivity.
      * rewrite IH. reflexivity.
    + assert (Hx : filter (is_trigger_of bell)
                          (map (pair k) [bell_triggered x]) = []).
      { cbn [map filter]. unfold is_trigger_of. cbn [snd].
        destruct (Bell.eqb x bell) eqn:E; [| reflexivity].
        apply Bell_eqb_eq in E. contradiction. }
      destruct (negb (Bell.enabled x)); [exact IH |].
      destruct (negb (py_in _ _)); [exact IH |].
      destruct (_ && _); [| exact IH].
      change (bell_triggered x :: trigger_loop (tick day k) rest)
        with ([bell_triggered x] ++ trigger_loop (tick day k) rest).
      rewrite map_app, filter_app, Hx, IH. reflexivity.
Qed.

Lemma update_next_bell_of (bell : Bell.t) (k : Z) (clock : Clock)
    (self : t) :
  filter (is_trigger_of bell)
         (map (pair k) (snd (update_next_bell clock self))) = [].
Proof.
  unfold update_next_bell.
  destruct (next_loop _ _ _ _) as [nb ms].
  destruct (_ || _); simpl; [destruct nb |]; reflexivity.
Qed.

(** Polling at each second of a list in turn. *)
Lemma simulate_of (bell : Bell.t) (ks : list Z) :
  Bell.enabled bell = true ->
  py_in day (Bell.days bell) = true ->
  QTime.isValid (Bell.time bell) = true ->
  Forall (fun k => 0 <= k < 86400) ks ->
  forall self,
    filter (is_trigger_of bell) (simulate day self ks)
    = flat_map
        (fun k =>
           if k =? QTime.hour (Bell.time bell) * 3600
                   + QTime.minute (Bell.time bell) * 60
           then repeat (k, bell_triggered bell)
                       (count_occ Bell.eq_dec (bells self) bell)
           else [])
        ks.
Proof.
  intros He Hd V Hks.
  induction Hks as [| k ks Hk _ IH]; intros self; [reflexivity |].
  cbn [simulate flat_map].
  pose proof (check_bells_bells (tick day k) self) as Hb.
  pose proof (check_bells_events (tick day k) self) as Hev.
  destruct (check_bells (tick day k) self) as [self' ev].
  cbn [fst snd] in Hb, Hev. subst ev.
  rewrite filter_app, map_app, filter_app, IH, Hb.
  rewrite (trigger_loop_of bell k (bells self) He Hd V Hk).
  rewrite update_next_bell_of, app_nil_r. reflexivity.
Qed.

(** Among the seconds [0 .. n-1], a given second is met once. *)
Lemma flat_map_at {A : Type} (g : Z -> list A) (t : Z) (n : nat) :
  0 <= t ->
  flat_map (fun k => if k =? t then g k else []) (map Z.of_nat (seq 0 n))
  = if t <? Z.of_nat n then g t else [].
Proof.
  intros Ht. induction n as [| n IH].
  - simpl. destruct (Z.ltb_spec t 0); [lia | reflexivity].
  - rewrite seq_S, map_app, flat_map_app, IH. cbn [map flat_map].
    rewrite app_nil_r. cbn [Nat.add].
    destruct (Z.eqb_spec (Z.of_nat n) t) as [E | E].
    + destruct (Z.ltb_spec t (Z.of_nat n)); [lia |].
      destruct (Z.ltb_spec t (Z.of_nat (S n))); [| lia].
      subst t. reflexivity.
    + destruct (Z.ltb_spec t (Z.of_nat n));
        destruct (Z.ltb_spec t (Z.of_nat (S n))); try lia;
        rewrite ?app_nil_r; reflexivity.
Qed.

Lemma day_ticks_range : Forall (fun k => 0 <= k < 86400) day_ticks.
Proof.
  apply Forall_forall. intros k Hk. unfold day_ticks in Hk.
  apply in_map_iff in Hk as (n & <- & Hn). apply in_seq in Hn. lia.
Qed.

End Day.

(** C1.  Take a bell that the schedule lists once, that is enabled, whose
    days contain the weekday and whose time is a valid time of day.  Polling
    once per second through the whole day, with the clock on that weekday,
    emits exactly one trigger for the bell, and emits it at the second whose
    hour and minute are the bell's and whose second is 0. *)
Theorem exactly_once_firing (day : string) (self : BellScheduler.t)
    (bell : Bell.t) :
  count_occ Bell.eq_dec (BellScheduler.bells self) bell = 1%nat ->
  Bell.enabled bell = true ->
  py_in day (Bell.days bell) = true ->
  QTime.isValid (Bell.time bell) = true ->
  exists k,
    filter (is_trigger_of bell) (simulate day self day_ticks)
    = [(k, bell_triggered bell)]
    /\ 0 <= k < 86400
    /\ QTime.hour (current_time (tick day k)) = QTime.hour (Bell.time bell)
    /\ QTime.minute (current_time (tick day k))
       = QTime.minute (Bell.time bell)
    /\ QTime.second (current_time (tick day k)) = 0.
Proof.
  intros Hone He Hd V.
  pose proof (hour_range _ V) as Hh. pose proof (minute_range _ V) as Hm.
  exists (QTime.hour (Bell.time bell) * 3600
          + QTime.minute (Bell.time bell) * 60).
  split.
  - rewrite (simulate_of day bell day_ticks He Hd V (day_ticks_range)).
    rewrite Hone. unfold day_ticks.
    rewrite (flat_map_at
               (fun k => repeat (k, bell_triggered bell) 1)) by lia.
    destruct (Z.ltb_spec
                (QTime.hour (Bell.time bell) * 3600
                 + QTime.minute (Bell.time bell) * 60)
                (Z.of_nat (Z.to_nat 86400))); [reflexivity | lia].
  - split; [lia |].
    destruct (tick_accessors day
                (QTime.hour (Bell.time bell) * 3600
                 + QTime.minute (Bell.time bell) * 60) ltac:(lia))
      as (_ & -> & -> & ->).
    repeat split; Z.div_mod_to_equations; lia.
Qed.

Lemma exactly_once_firing_witness :
  exists k,
    filter (is_trigger_of (Bell.new "Lunch" (QTime.hm 12 25)))
           (simulate "Tuesday"
              (fst (BellScheduler.init Sample.monday_morning Missing))
              day_ticks)
    = [(k, bell_triggered (Bell.new "Lunch" (QTime.hm 12 25)))]
    /\ 0 <= k < 86400
    /\ QTime.hour (current_time (tick "Tuesday" k)) = 12
    /\ QTime.minute (current_time (tick "Tuesday" k)) = 25
    /\ QTime.second (current_time (tick "Tuesday" k)) = 0.
Proof.
  apply (exactly_once_firing "Tuesday"
           (fst (BellScheduler.init Sample.monday_morning Missing))
           (Bell.new "Lunch" (QTime.hm 12 25)));
    vm_compute; reflexivity.
Defined.

(** ** The countdown to the next bell *)
Section Countdown.

Import BellScheduler.

(** One second later on the same day. *)
Variables now later : QTime.t.
Hypothesis now_valid : QTime.isValid now = true.
Hypothesis same_day : QTime.mds now + 1000 < QTime.MSECS_PER_DAY.
Hypothesis one_second : later = QTime.addSecs now 1.

Lemma later_valid : QTime.isValid later = true.
Proof.
  rewrite one_second. unfold QTime.addSecs. rewrite now_valid.
  apply isValid_range in now_valid. unfold QTime.MSECS_PER_DAY in *.
  apply isValid_range. simpl. rewrite Z.mod_small; lia.
Qed.

Lemma later_second_of_day :
  QTime.mds later / 1000 = QTime.mds now / 1000 + 1.
Proof.
  rewrite one_second. unfold QTime.addSecs. rewrite now_valid.
  apply isValid_range in now_valid. unfold QTime.MSECS_PER_DAY in *.
  simpl. rewrite Z.mod_small by lia.
  Z.div_mod_to_equations. lia.
Qed.

(** The seconds until a target lose one from one second to the next,
    except at a valid target itself, where they go from 0 to a day less
    one second. *)
Lemma seconds_until_time_step (target : QTime.t) :
  let v := seconds_until_time now target in
  let v' := seconds_until_time later target in
  v <= 86399 /\ (v' = v - 1 \/ (v = 0 /\ v' = 86399)).
Proof.
  unfold seconds_until_time. cbv zeta.
  rewrite (second_of_day now now_valid).
  rewrite (second_of_day later later_valid), later_second_of_day.
  pose proof (target_secs_range target) as R. cbv zeta in R.
  pose proof (proj1 (isValid_range now) now_valid) as Hnow.
  pose proof same_day as Hday. unfold QTime.MSECS_PER_DAY in Hday.
  assert (0 <= QTime.mds now / 1000 < 86399)
    by (Z.div_mod_to_equations; lia).
  repeat match goal with
         | |- context [?a <? ?b] => destruct (Z.ltb_spec a b)
         end; lia.
Qed.

(** The minimum the loop keeps never grows. *)
Lemma next_loop_le (t : QTime.t) (active : list Bell.t) :
  forall nb a n,
    snd (next_loop t active nb (PInt a)) = PInt n -> n <= a.
Proof.
  induction active as [| bell rest IH]; intros nb a n H; simpl in H.
  - inversion H. lia.
  - destruct (0 <? seconds_until_time t (Bell.time bell)); simpl in H;
      [| eauto].
    destruct (Z.ltb_spec (seconds_until_time t (Bell.time bell)) a);
      [| eauto].
    apply IH in H. lia.
Qed.

(** The running minimum of the second poll follows that of the first
    through the whole loop. *)
Lemma next_loop_step (active : list Bell.t) (n : Z) :
  2 <= n ->
  forall nb ms nb' ms',
    follows ms ms' ->
    snd (next_loop now active nb ms) = PInt n ->
    snd (next_loop later active nb' ms') = PInt (n - 1).
Proof.
  intros Hn.
  induction active as [| bell rest IH]; intros nb ms nb' ms' Hf H.
  - simpl in *. destruct Hf as [[-> _] | (a & -> & _ & ->)];
      [discriminate H |].
    inversion H. reflexivity.
  - cbn [next_loop] in *.
    destruct (seconds_until_time_step (Bell.time bell)) as [Hmax Hstep].
    set (v := seconds_until_time now (Bell.time bell)) in *.
    set (v' := seconds_until_time later (Bell.time bell)) in *.
    destruct (Z.ltb_spec 0 v) as [Hpos | Hneg]; cbn [andb] in H.
    + (* a bell still ahead: it is one second nearer *)
      assert (Ev' : v' = v - 1) by lia. rewrite Ev'. clear Hstep.
      assert (Hone : int_lt_num v ms = true -> 2 <= v).
      { intros E. rewrite E in H. apply next_loop_le in H. lia. }
      destruct Hf as [[-> Hms'] | (a & -> & Ha & ->)]; cbn [int_lt_num] in *.
      * specialize (Hone eq_refl).
        assert (E' : (0 <? v - 1) && int_lt_num (v - 1) ms' = true).
        { apply andb_true_iff. split; [apply Z.ltb_lt; lia |].
          destruct Hms' as [-> | ->]; simpl; [reflexivity |].
          apply Z.ltb_lt. lia. }
        rewrite E'. eapply IH; [| exact H].
        right. exists v. repeat split; lia.
      * destruct (Z.ltb_spec v a) as [Hlt | Hge].
        -- specialize (Hone eq_refl).
           replace (0 <? v - 1) with true
             by (symmetry; apply Z.ltb_lt; lia).
           replace (v - 1 <? a - 1) with true
             by (symmetry; apply Z.ltb_lt; lia).
           cbn [andb]. eapply IH; [| exact H].
           right. exists v. repeat split; lia.
        -- replace (v - 1 <? a - 1) with false
             by (symmetry; apply Z.ltb_ge; lia).
           rewrite andb_false_r. eapply IH; [| exact H].
           right. exists a. repeat split; lia.
    + (* a bell not ahead stays out of the first poll *)
      destruct Hf as [[-> Hms'] | (a & -> & Ha & ->)].
      * destruct ((0 <? v') && int_lt_num v' ms') eqn:E'.
        -- apply andb_true_iff in E' as [E' _]. apply Z.ltb_lt in E'.
           assert (Ev' : v' = 86399) by lia. rewrite Ev'.
           eapply IH; [| exact H]. left. auto.
        -- eapply IH; [| exact H]. left. auto.
      * replace ((0 <? v') && int_lt_num v' (PInt (a - 1))) with false.
        -- eapply IH; [| exact H]. right. exists a. repeat split; lia.
        -- symmetry. apply andb_false_iff. cbn [int_lt_num].
           destruct Hstep as [-> | [_ ->]];
             [left | right]; apply Z.ltb_ge; lia.
Qed.

End Countdown.

(** C8.  With the bell list untouched, a poll one second after another, on
    the same day, finds the countdown one second lower; the exception is the
    poll that lands on second 0 of the next bell's minute (a countdown of 1
    before it), where the countdown wraps: it is never 0 but moves on to
    another bell or to none. *)
Theorem countdown_decreases (day : string) (self : BellScheduler.t)
    (now : QTime.t) (n : Z) :
  QTime.isValid now = true ->
  QTime.mds now + 1000 < QTime.MSECS_PER_DAY ->
  let first := fst (BellScheduler.check_bells (mkClock now day) self) in
  let second :=
    fst (BellScheduler.check_bells
           (mkClock (QTime.addSecs now 1) day) first) in
  BellScheduler.seconds_to_next first = PInt n ->
  (n <> 1 -> BellScheduler.seconds_to_next second = PInt (n - 1))
  /\ (n = 1 -> BellScheduler.seconds_to_next second <> PInt 0).
Proof.
  intros V Hday first second Hfirst.
  assert (Hb : BellScheduler.bells first = BellScheduler.bells self)
    by apply check_bells_bells.
  assert (Hact : BellScheduler.active_bells
                   (mkClock (QTime.addSecs now 1) day) first
                 = BellScheduler.active_bells (mkClock now day) self).
  { unfold BellScheduler.active_bells. rewrite Hb. reflexivity. }
  subst second first.
  rewrite check_bells_state in Hfirst.
  destruct (update_next_bell_state (mkClock now day) self)
    as (_ & S1 & _).
  rewrite S1 in Hfirst. clear S1.
  rewrite check_bells_state.
  match goal with
  | |- context [BellScheduler.update_next_bell ?c ?s] =>
      destruct (update_next_bell_state c s) as (_ & S2 & _)
  end.
  rewrite S2, Hact. clear S2. cbn [current_time] in *.
  pose proof (next_loop_found_ok now
                (BellScheduler.active_bells (mkClock now day) self)
                None PInf (or_introl (conj eq_refl eq_refl))) as Hok1.
  pose proof (next_loop_found_ok (QTime.addSecs now 1)
                (BellScheduler.active_bells (mkClock now day) self)
                None PInf (or_introl (conj eq_refl eq_refl))) as Hok2.
  split.
  - intros Hn.
    assert (2 <= n).
    { destruct Hok1 as [[_ Hinf] | (b & z & _ & Hz & Hpos)];
        rewrite Hfirst in *; [discriminate Hinf |].
      inversion Hz. lia. }
    eapply (next_loop_step now (QTime.addSecs now 1) V Hday eq_refl);
      [eassumption | | exact Hfirst].
    left. auto.
  - intros _ Hzero.
    destruct Hok2 as [[_ Hinf] | (b & z & _ & Hz & Hpos)];
      rewrite Hzero in *; [discriminate Hinf |].
    inversion Hz. lia.
Qed.

Lemma countdown_decreases_witness :
  let self := fst (BellScheduler.init Sample.monday_morning Missing) in
  let first :=
    fst (BellScheduler.check_bells
           (mkClock (QTime.hms 9 0 0 0) "Wednesday") self) in
  let second :=
    fst (BellScheduler.check_bells
           (mkClock (QTime.addSecs (QTime.hms 9 0 0 0) 1) "Wednesday")
           first) in
  BellScheduler.seconds_to_next first = PInt 5400
  /\ BellScheduler.seconds_to_next second = PInt 5399.
Proof.
  cbv zeta. split; [reflexivity |].
  apply (countdown_decreases "Wednesday"
           (fst (BellScheduler.init Sample.monday_morning Missing))
           (QTime.hms 9 0 0 0) 5400);
    [reflexivity | reflexivity | reflexivity | discriminate].
Defined.


(** * Further properties of the scheduler *)

(** ** Which bells a poll triggers *)
Section Triggers.

Import BellScheduler.

Lemma trigger_loop_filter (clock : Clock) (bs : list Bell.t) :
  triggered (trigger_loop clock bs) = filter (due clock) bs.
Proof.
  induction bs as [| bell rest IH]; [reflexivity |].
  cbn [trigger_loop filter]. unfold due at 1.
  destruct (Bell.enabled bell); cbn [negb andb]; [| exact IH].
  destruct (py_in _ _); cbn [negb andb]; [| exact IH].
  destruct (_ && _); [| exact IH].
  cbn [triggered flat_map app]. fold (triggered (trigger_loop clock rest)).
  rewrite IH. reflexivity.
Qed.

Lemma In_triggered (ev : list Event) (b : Bell.t) :
  In b (triggered ev) <-> In (bell_triggered b) ev.
Proof.
  induction ev as [| e ev IH]; [simpl; tauto |].
  destruct e as [b' | | nb ms]; simpl.
  - rewrite IH. split; intros [H | H]; auto; left; congruence.
  - rewrite IH. split; [auto | intros [H | H]; [discriminate H | auto]].
  - rewrite IH. split; [auto | intros [H | H]; [discriminate H | auto]].
Qed.

Lemma due_true (clock : Clock) (b : Bell.t) :
  due clock b = true <->
  Bell.enabled b = true
  /\ py_in (current_day clock) (Bell.days b) = true
  /\ QTime.hour (Bell.time b) = QTime.hour (current_time clock)
  /\ QTime.minute (Bell.time b) = QTime.minute (current_time clock)
  /\ QTime.second (current_time clock) = 0.
Proof.
  unfold due. rewrite !andb_true_iff, !Z.eqb_eq. tauto.
Qed.

(** One poll leaves untouched every trigger-free part of a simulation. *)
Lemma simulate_no_trigger (day : string) (bell : Bell.t) :
  (forall k bs,
      filter (is_trigger_of bell)
             (map (pair k) (trigger_loop (tick day k) bs)) = []) ->
  forall ks self, filter (is_trigger_of bell) (simulate day self ks) = [].
Proof.
  intros Hpoll ks.
  induction ks as [| k ks IH]; intros self; [reflexivity |].
  cbn [simulate].
  pose proof (check_bells_events (tick day k) self) as Hev.
  destruct (check_bells (tick day k) self) as [self' ev].
  cbn [snd] in Hev. subst ev.
  rewrite filter_app, map_app, filter_app, Hpoll, IH.
  rewrite update_next_bell_of. reflexivity.
Qed.

Lemma trigger_loop_not_due (day : string) (bell : Bell.t) (k : Z)
    (bs : list Bell.t) :
  Bell.enabled bell = false \/ py_in day (Bell.days bell) = false ->
  filter (is_trigger_of bell) (map (pair k) (trigger_loop (tick day k) bs))
  = [].
Proof.
  intros Hoff.
  induction bs as [| x rest IH]; [reflexivity |].
  cbn [trigger_loop]. change (current_day (tick day k)) with day.
  destruct (Bell.enabled x) eqn:Ex; cbn [negb]; [| exact IH].
  destruct (py_in day (Bell.days x)) eqn:Dx; cbn [negb]; [| exact IH].
  destruct (_ && _); [| exact IH].
  cbn [map filter]. unfold is_trigger_of at 1. cbn [snd].
  destruct (Bell.eqb x bell) eqn:E; [| exact IH].
  apply Bell_eqb_eq in E. subst x.
  destruct Hoff as [H | H]; congruence.
Qed.

End Triggers.

(** X1.  The bells a poll triggers are the bells of the list that are
    enabled, scheduled on the clock's weekday and set to the clock's hour
    and minute, and only when the clock's second is 0; they are triggered in
    list order, once for each place they have in the list.  The poll leaves
    the list and the file as they were. *)
Theorem check_bells_triggers (clock : Clock) (self : BellScheduler.t) :
  triggered (snd (BellScheduler.check_bells clock self))
  = filter (due clock) (BellScheduler.bells self)
  /\ (forall b,
         In (bell_triggered b) (snd (BellScheduler.check_bells clock self))
         <-> In b (BellScheduler.bells self)
             /\ Bell.enabled b = true
             /\ py_in (current_day clock) (Bell.days b) = true
             /\ QTime.hour (Bell.time b) = QTime.hour (current_time clock)
             /\ QTime.minute (Bell.time b)
                = QTime.minute (current_time clock)
             /\ QTime.second (current_time clock) = 0)
  /\ BellScheduler.bells (fst (BellScheduler.check_bells clock self))
     = BellScheduler.bells self
  /\ BellScheduler.bells_file (fst (BellScheduler.check_bells clock self))
     = BellScheduler.bells_file self.
Proof.
  assert (E : triggered (snd (BellScheduler.check_bells clock self))
              = filter (due clock) (BellScheduler.bells self)).
  { rewrite triggered_check_bells. apply trigger_loop_filter. }
  split; [exact E |]. split; [| split].
  - intros b. rewrite <- In_triggered, E, filter_In, due_true. tauto.
  - apply check_bells_bells.
  - rewrite check_bells_state. apply update_next_bell_state.
Qed.

Lemma check_bells_triggers_witness :
  In (bell_triggered (Bell.new "Break" (QTime.hm 11 20)))
     (snd (BellScheduler.check_bells
             (mkClock (QTime.hms 11 20 0 0) "Thursday")
             (fst (BellScheduler.init Sample.monday_morning Missing)))).
Proof.
  apply (proj1 (proj2 (check_bells_triggers
                         (mkClock (QTime.hms 11 20 0 0) "Thursday")
                         (fst (BellScheduler.init Sample.monday_morning
                                 Missing))))).
  repeat split. right. right. left. reflexivity.
Defined.

(** X2.  A bell that is disabled, or whose days do not contain the clock's
    weekday, is never triggered, at whatever seconds the scheduler is
    polled. *)
Theorem off_bell_never_fires (day : string) (self : BellScheduler.t)
    (bell : Bell.t) (ticks : list Z) :
  Bell.enabled bell = false \/ py_in day (Bell.days bell) = false ->
  filter (is_trigger_of bell) (simulate day self ticks) = [].
Proof.
  intros Hoff. apply simulate_no_trigger.
  intros k bs. apply trigger_loop_not_due. exact Hoff.
Qed.

Lemma off_bell_never_fires_witness :
  filter (is_trigger_of (Bell.new "Lunch" (QTime.hm 12 25)))
         (simulate "Sunday"
            (fst (BellScheduler.init Sample.monday_morning Missing))
            day_ticks) = [].
Proof.
  apply (off_bell_never_fires "Sunday"
           (fst (BellScheduler.init Sample.monday_morning Missing))
           (Bell.new "Lunch" (QTime.hm 12 25)) day_ticks).
  right. reflexivity.
Defined.

(** X3.  For valid times the countdown to a target is 0 exactly at second 0
    of the target's minute, the moment [check_bells] triggers on; at every
    other moment it lies between 1 and 86399. *)
Theorem seconds_until_zero_iff_due (now target : QTime.t) :
  QTime.isValid now = true -> QTime.isValid target = true ->
  (BellScheduler.seconds_until_time now target = 0
   <-> QTime.hour target = QTime.hour now
       /\ QTime.minute target = QTime.minute now
       /\ QTime.second now = 0)
  /\ 0 <= BellScheduler.seconds_until_time now target <= 86399.
Proof.
  intros Vn Vt.
  pose proof (hour_range _ Vn). pose proof (minute_range _ Vn).
  pose proof (second_range _ Vn).
  pose proof (hour_range _ Vt). pose proof (minute_range _ Vt).
  rewrite seconds_until_time_raw. cbv zeta.
  destruct (Z.ltb_spec
              (QTime.hour target * 3600 + QTime.minute target * 60
               - (QTime.hour now * 3600 + QTime.minute now * 60
                  + QTime.second now)) 0); split; try lia.
Qed.

Lemma seconds_until_zero_iff_due_witness :
  BellScheduler.seconds_until_time (QTime.hms 10 30 0 0) (QTime.hm 10 30) = 0.
Proof.
  apply (proj1 (seconds_until_zero_iff_due
                  (QTime.hms 10 30 0 0) (QTime.hm 10 30)
                  eq_refl eq_refl)).
  repeat split.
Defined.

(** ** Which bell is the next bell *)
Section NextBell.

Import BellScheduler.

Variable now : QTime.t.

Let su (b : Bell.t) : Z := seconds_until_time now (Bell.time b).

Lemma int_lt_num_trans (a b : Z) (ms : PyNum) :
  a < b -> int_lt_num b ms = true -> int_lt_num a ms = true.
Proof.
  destruct ms as [m |]; simpl; [| reflexivity].
  rewrite !Z.ltb_lt. lia.
Qed.

(** What the loop returns is either what it started with, never beaten, or
    the first bell of the list that is nearest among the bells ahead. *)
Lemma next_loop_spec (l : list Bell.t) :
  forall nb ms b n,
    next_loop now l nb ms = (Some b, PInt n) ->
    (nb = Some b /\ ms = PInt n
     /\ forall x, In x l -> 0 < su x -> n <= su x)
    \/ (exists pre post,
           l = pre ++ b :: post /\ su b = n /\ 0 < n
           /\ int_lt_num n ms = true
           /\ (forall x, In x pre -> 0 < su x -> n < su x)
           /\ (forall x, In x post -> 0 < su x -> n <= su x)).
Proof.
  induction l as [| x rest IH]; intros nb ms b n H; cbn [next_loop] in H.
  - inversion H. left. repeat split. intros x [].
  - fold (su x) in H.
    destruct ((0 <? su x) && int_lt_num (su x) ms) eqn:C.
    + apply andb_true_iff in C as [Cpos Clt]. apply Z.ltb_lt in Cpos.
      apply IH in H as [(Hb & Hn & Hall)
                       | (pre & post & -> & Hsu & Hpos & Hlt & Hpre & Hpost)].
      * inversion Hb; inversion Hn; subst. right.
        exists [], rest. repeat split; auto.
        intros y [].
      * right. exists (x :: pre), post. cbn [int_lt_num] in Hlt.
        apply Z.ltb_lt in Hlt.
        repeat split; auto.
        -- eapply int_lt_num_trans; eauto.
        -- intros y [<- | Hy] Hy'; auto.
    + assert (Hx : 0 < su x -> int_lt_num (su x) ms = false).
      { intros Hp. apply andb_false_iff in C as [C | C]; auto.
        apply Z.ltb_ge in C. lia. }
      apply IH in H as [(Hb & Hn & Hall)
                       | (pre & post & -> & Hsu & Hpos & Hlt & Hpre & Hpost)].
      * left. repeat split; auto.
        intros y [<- | Hy] Hy'; auto.
        specialize (Hx Hy'). subst ms. simpl in Hx.
        apply Z.ltb_ge in Hx. exact Hx.
      * right. exists (x :: pre), post. repeat split; auto.
        intros y [<- | Hy] Hy'; auto.
        specialize (Hx Hy'). destruct ms as [m |]; simpl in *;
          [| discriminate Hx].
        apply Z.ltb_ge in Hx. apply Z.ltb_lt in Hlt. lia.
Qed.

(** The loop finds no bell exactly when it started with none and no bell
    of the list is ahead. *)
Lemma next_loop_none (l : list Bell.t) :
  forall nb ms,
    fst (next_loop now l nb ms) = None <->
    nb = None /\ forall x, In x l -> int_lt_num (su x) ms = true -> su x <= 0.
Proof.
  induction l as [| x rest IH]; intros nb ms; cbn [next_loop].
  - simpl. split; [intros H; split; [exact H | intros x []] | tauto].
  - fold (su x).
    destruct ((0 <? su x) && int_lt_num (su x) ms) eqn:C.
    + rewrite IH. split; [intros [H _]; discriminate H |].
      intros [_ H]. apply andb_true_iff in C as [Cpos Clt].
      apply Z.ltb_lt in Cpos. specialize (H x (or_introl eq_refl) Clt). lia.
    + rewrite IH. split; intros [Hn H]; split; auto.
      * intros y [<- | Hy] Hlt; auto.
        apply andb_false_iff in C as [C | C]; [| congruence].
        apply Z.ltb_ge in C. exact C.
      * intros y Hy. apply H. right. exact Hy.
Qed.

End NextBell.

(** X4.  When a recomputation names a next bell, that bell is an enabled
    bell of today's list with a strictly positive countdown, the countdown
    stored is its own, no enabled bell of today that is still ahead is
    nearer, and every such bell before it in the list is strictly farther:
    ties go to the first in list order. *)
Theorem next_bell_is_nearest (clock : Clock) (self : BellScheduler.t)
    (b : Bell.t) :
  BellScheduler.next_bell (fst (BellScheduler.update_next_bell clock self))
  = Some b ->
  exists pre post n,
    BellScheduler.active_bells clock self = pre ++ b :: post
    /\ BellScheduler.seconds_to_next
         (fst (BellScheduler.update_next_bell clock self)) = PInt n
    /\ n = BellScheduler.seconds_until_time (current_time clock) (Bell.time b)
    /\ 0 < n
    /\ In b (BellScheduler.bells self)
    /\ Bell.enabled b = true
    /\ py_in (current_day clock) (Bell.days b) = true
    /\ (forall x, In x pre ->
          0 < BellScheduler.seconds_until_time (current_time clock)
                (Bell.time x) ->
          n < BellScheduler.seconds_until_time (current_time clock)
                (Bell.time x))
    /\ (forall x, In x post ->
          0 < BellScheduler.seconds_until_time (current_time clock)
                (Bell.time x) ->
          n <= BellScheduler.seconds_until_time (current_time clock)
                 (Bell.time x)).
Proof.
  intros Hnb.
  destruct (update_next_bell_state clock self) as (S1 & S2 & _).
  rewrite S1 in Hnb. rewrite S2. clear S1 S2.
  pose proof (next_loop_found_ok (current_time clock)
                (BellScheduler.active_bells clock self) None PInf
                (or_introl (conj eq_refl eq_refl))) as Hok.
  destruct (BellScheduler.next_loop (current_time clock)
              (BellScheduler.active_bells clock self) None PInf)
    as [nb ms] eqn:E.
  cbn [fst snd] in *. subst nb.
  destruct Hok as [[Hn _] | (b' & n & _ & Hms & _)]; [discriminate Hn |].
  cbn [snd] in Hms. subst ms.
  apply next_loop_spec in E
    as [(Hb & _) | (pre & post & Hl & Hsu & Hpos & _ & Hpre & Hpost)];
    [discriminate Hb |].
  exists pre, post, n.
  assert (Hin : In b (BellScheduler.active_bells clock self))
    by (rewrite Hl; apply in_or_app; right; left; reflexivity).
  unfold BellScheduler.active_bells in Hin.
  apply filter_In in Hin as [Hin Hcond].
  apply andb_true_iff in Hcond as [He Hd].
  repeat split; auto.
Qed.

Lemma next_bell_is_nearest_witness :
  exists pre post n,
    BellScheduler.active_bells (mkClock (QTime.hms 11 30 0 0) "Monday")
      (fst (BellScheduler.init Sample.monday_morning Missing))
    = pre ++ Bell.new "Period 2" (QTime.hm 11 35) :: post
    /\ n = 300.
Proof.
  destruct (next_bell_is_nearest
              (mkClock (QTime.hms 11 30 0 0) "Monday")
              (fst (BellScheduler.init Sample.monday_morning Missing))
              (Bell.new "Period 2" (QTime.hm 11 35)) eq_refl)
    as (pre & post & n & Hl & _ & Hn & _).
  exists pre, post, n. split; [exact Hl | exact Hn].
Defined.

(** X5.  A recomputation names no next bell exactly when no enabled bell
    of today has a strictly positive countdown; otherwise it names one. *)
Theorem next_bell_none_iff (clock : Clock) (self : BellScheduler.t) :
  BellScheduler.next_bell (fst (BellScheduler.update_next_bell clock self))
  = None
  <-> forall x,
        In x (BellScheduler.bells self) ->
        Bell.enabled x = true ->
        py_in (current_day clock) (Bell.days x) = true ->
        BellScheduler.seconds_until_time (current_time clock) (Bell.time x)
        <= 0.
Proof.
  destruct (update_next_bell_state clock self) as (-> & _).
  rewrite next_loop_none. split.
  - intros [_ H] x Hin He Hd. apply H; [| reflexivity].
    unfold BellScheduler.active_bells. apply filter_In.
    split; [exact Hin |]. rewrite He, Hd. reflexivity.
  - intros H. split; [reflexivity |]. intros x Hin _.
    unfold BellScheduler.active_bells in Hin.
    apply filter_In in Hin as [Hin Hc].
    apply andb_true_iff in Hc as [He Hd]. apply H; assumption.
Qed.

Lemma next_bell_none_iff_witness :
  BellScheduler.next_bell
    (fst (BellScheduler.update_next_bell
            (mkClock (QTime.hms 12 0 0 0) "Monday")
            (BellScheduler.mk [Sample.chime] None (PInt 0) Missing)))
  = None.
Proof.
  apply (proj2 (next_bell_none_iff
                  (mkClock (QTime.hms 12 0 0 0) "Monday")
                  (BellScheduler.mk [Sample.chime] None (PInt 0) Missing))).
  intros x [<- | []] _ _. vm_compute. discriminate.
Defined.



(** X7.  After a poll at a valid time the countdown kept is either infinity
    or an integer from 1 to 86399: never 0, never negative, never a whole
    day. *)
Theorem countdown_within_a_day (clock : Clock) (self : BellScheduler.t) :
  QTime.isValid (current_time clock) = true ->
  BellScheduler.seconds_to_next (fst (BellScheduler.check_bells clock self))
  = PInf
  \/ exists n,
       BellScheduler.seconds_to_next
         (fst (BellScheduler.check_bells clock self)) = PInt n
       /\ 1 <= n <= 86399.
Proof.
  intros V. rewrite check_bells_state.
  destruct (update_next_bell_state clock self) as (_ & S2 & _).
  rewrite S2. clear S2.
  pose proof (next_loop_found_ok (current_time clock)
                (BellScheduler.active_bells clock self) None PInf
                (or_introl (conj eq_refl eq_refl))) as Hok.
  destruct (BellScheduler.next_loop (current_time clock)
              (BellScheduler.active_bells clock self) None PInf)
    as [nb ms] eqn:E.
  cbn [fst snd] in *.
  destruct Hok as [[_ Hinf] | (b & n & Hb & Hms & Hpos)];
    cbn [fst snd] in *; [left; exact Hinf | right].
  subst nb ms. exists n. split; [reflexivity |].
  apply next_loop_spec in E
    as [(Hb & _) | (pre & post & _ & Hsu & _)]; [discriminate Hb |].
  split; [lia |]. rewrite <- Hsu.
  unfold BellScheduler.seconds_until_time. cbv zeta.
  rewrite (second_of_day _ V).
  pose proof (target_secs_range (Bell.time b)) as R. cbv zeta in R.
  pose proof (proj1 (isValid_range _) V).
  assert (0 <= QTime.mds (current_time clock) / 1000 < 86400)
    by (Z.div_mod_to_equations; lia).
  match goal with
  | |- context [?a <? ?b] => destruct (Z.ltb_spec a b)
  end; lia.
Qed.

Lemma countdown_within_a_day_witness :
  BellScheduler.seconds_to_next
    (fst (BellScheduler.check_bells
            (mkClock (QTime.hms 14 0 0 0) "Friday")
            (fst (BellScheduler.init Sample.monday_morning Missing))))
  = PInf
  \/ exists n,
       BellScheduler.seconds_to_next
         (fst (BellScheduler.check_bells
                 (mkClock (QTime.hms 14 0 0 0) "Friday")
                 (fst (BellScheduler.init Sample.monday_morning Missing))))
       = PInt n
       /\ 1 <= n <= 86399.
Proof.
  apply (countdown_within_a_day
           (mkClock (QTime.hms 14 0 0 0) "Friday")
           (fst (BellScheduler.init Sample.monday_morning Missing))).
  reflexivity.
Defined.

(** ** The list in memory and the file *)
Section Store.

Import BellScheduler.

Lemma update_loop_length (bell_id : string) (updated : Bell.t)
    (bs : list Bell.t) :
  List.length (update_loop bell_id updated bs) = List.length bs.
Proof.
  induction bs as [| x rest IH]; simpl; [reflexivity |].
  destruct (String.eqb (Bell.id x) bell_id); simpl; congruence.
Qed.

Lemma create_default_bells_state (self : t) :
  fst (create_default_bells self)
  = mk default_bells (next_bell self) (seconds_to_next self)
       (Records (map Bell.to_dict default_bells)).
Proof. reflexivity. Qed.

Lemma default_bells_decode :
  comprehension Bell.from_dict (map Bell.to_dict default_bells)
  = Ok default_bells.
Proof. reflexivity. Qed.

(** The state a load leaves, but for the cached next bell. *)
Lemma load_bells_state (clock : Clock) (self : t) :
  let self' := fst (load_bells clock self) in
  match bells_file self with
  | Records bells_data =>
      match comprehension Bell.from_dict bells_data with
      | Ok bs => bells self' = bs /\ bells_file self' = Records bells_data
      | Raise _ => bells self' = default_bells /\ mirrored self'
      end
  | _ => bells self' = default_bells /\ mirrored self'
  end.
Proof.
  cbv zeta. unfold load_bells, seq_method, mirrored.
  destruct (bells_file self) as [| | bells_data] eqn:F;
    [| | destruct (comprehension Bell.from_dict bells_data) as [bs | e]];
    match goal with
    | |- context [let (_, _) := ?m self in _] =>
        destruct (m self) as [s1 e1] eqn:E1;
        pose proof (update_next_bell_state clock s1) as (_ & _ & Hb & Hf);
        destruct (update_next_bell clock s1) as [s2 e2];
        cbn [fst snd] in *; rewrite Hb, Hf;
        inversion E1; cbn [bells bells_file]; auto
    end.
Qed.

Lemma filter_andb {A : Type} (f g : A -> bool) (l : list A) :
  filter (fun x => f x && g x) l = filter f (filter g l).
Proof.
  induction l as [| x rest IH]; simpl; [reflexivity |].
  destruct (g x); simpl; destruct (f x); simpl; congruence.
Qed.

End Store.

(** X8.  Every method that changes the list writes it out: after
    [add_bell], [update_bell], [remove_bell] and [create_default_bells] the
    file holds exactly the list in memory; a poll keeps a file that mirrors
    the list mirroring it. *)
Theorem mutations_mirror (clock : Clock) (self : BellScheduler.t)
    (bell : Bell.t) (bell_id : string) :
  mirrored (fst (BellScheduler.add_bell clock bell self))
  /\ mirrored (fst (BellScheduler.update_bell clock bell_id bell self))
  /\ mirrored (fst (BellScheduler.remove_bell clock bell_id self))
  /\ mirrored (fst (BellScheduler.create_default_bells self))
  /\ (mirrored self -> mirrored (fst (BellScheduler.check_bells clock self))).
Proof.
  unfold mirrored.
  split; [| split; [| split; [| split]]].
  - destruct (mutation_state clock (fun bs => bs ++ [bell]) self)
      as (Hb & Hf & _).
    fold (BellScheduler.add_bell clock bell) in Hb, Hf. congruence.
  - destruct (mutation_state clock
                (BellScheduler.update_loop bell_id bell) self)
      as (Hb & Hf & _).
    fold (BellScheduler.update_bell clock bell_id bell) in Hb, Hf.
    congruence.
  - destruct (mutation_state clock
                (filter (fun x => negb (String.eqb (Bell.id x) bell_id)))
                self) as (Hb & Hf & _).
    fold (BellScheduler.remove_bell clock bell_id) in Hb, Hf. congruence.
  - reflexivity.
  - intros Hm. rewrite check_bells_state.
    destruct (update_next_bell_state clock self) as (_ & _ & -> & ->).
    exact Hm.
Qed.

Lemma mutations_mirror_witness :
  mirrored
    (fst (BellScheduler.check_bells Sample.monday_morning
            (fst (BellScheduler.init Sample.monday_morning Missing)))).
Proof.
  apply (proj2 (proj2 (proj2 (proj2
           (mutations_mirror Sample.monday_morning
              (fst (BellScheduler.init Sample.monday_morning Missing))
              Sample.assembly "Assembly-08:30"))))).
  reflexivity.
Defined.

(** X9.  [add_bell] puts the bell at the end of the list, whether or not a
    bell of the same id is already there, and announces the update; removing
    the id of a bell just added gives back the list as it was when no other
    bell had that id. *)
Theorem add_then_remove (clock clock' : Clock) (self : BellScheduler.t)
    (bell : Bell.t) :
  BellScheduler.bells (fst (BellScheduler.add_bell clock bell self))
  = BellScheduler.bells self ++ [bell]
  /\ In bell_updated (snd (BellScheduler.add_bell clock bell self))
  /\ (Forall (fun x => Bell.id x <> Bell.id bell) (BellScheduler.bells self) ->
      BellScheduler.bells
        (fst (BellScheduler.remove_bell clock' (Bell.id bell)
                (fst (BellScheduler.add_bell clock bell self))))
      = BellScheduler.bells self).
Proof.
  destruct (mutation_state clock (fun bs => bs ++ [bell]) self)
    as (Hb & _ & ev & He & _).
  fold (BellScheduler.add_bell clock bell) in Hb, He.
  split; [exact Hb |]. split.
  - rewrite He. apply in_or_app. right. left. reflexivity.
  - intros Hid.
    destruct (mutation_state clock'
                (filter (fun x => negb (String.eqb (Bell.id x)
                                          (Bell.id bell))))
                (fst (BellScheduler.add_bell clock bell self)))
      as (Hr & _).
    fold (BellScheduler.remove_bell clock' (Bell.id bell)) in Hr.
    rewrite Hr, Hb, filter_app, (filter_unknown _ _ Hid). simpl.
    rewrite String.eqb_refl. simpl. apply app_nil_r.
Qed.

Lemma add_then_remove_witness :
  BellScheduler.bells
    (fst (BellScheduler.remove_bell Sample.monday_morning
            (Bell.id Sample.assembly)
            (fst (BellScheduler.add_bell Sample.monday_morning
                    Sample.assembly
                    (fst (BellScheduler.init Sample.monday_morning
                            Missing))))))
  = BellScheduler.default_bells.
Proof.
  apply (proj2 (proj2 (add_then_remove Sample.monday_morning
                         Sample.monday_morning
                         (fst (BellScheduler.init Sample.monday_morning
                                 Missing))
                         Sample.assembly))).
  repeat constructor; discriminate.
Defined.

(** X10.  [update_bell] never changes the number of bells.  With an id that
    no bell has it leaves the list as it was, and still writes the file and
    announces the update. *)
Theorem update_unknown_id (clock : Clock) (self : BellScheduler.t)
    (bell_id : string) (updated_bell : Bell.t) :
  let r := BellScheduler.update_bell clock bell_id updated_bell self in
  List.length (BellScheduler.bells (fst r))
  = List.length (BellScheduler.bells self)
  /\ (Forall (fun b => Bell.id b <> bell_id) (BellScheduler.bells self) ->
      BellScheduler.bells (fst r) = BellScheduler.bells self
      /\ BellScheduler.bells_file (fst r)
         = Records (map Bell.to_dict (BellScheduler.bells self))
      /\ In bell_updated (snd r)).
Proof.
  intros r.
  destruct (mutation_state clock
              (BellScheduler.update_loop bell_id updated_bell) self)
    as (Hb & Hf & ev & He & _).
  fold (BellScheduler.update_bell clock bell_id updated_bell) in Hb, Hf, He.
  fold r in Hb, Hf, He.
  split.
  - rewrite Hb. apply update_loop_length.
  - intros Hid. rewrite (update_loop_unknown _ _ _ Hid) in Hb, Hf.
    split; [exact Hb |]. split; [exact Hf |].
    rewrite He. apply in_or_app. right. left. reflexivity.
Qed.

Lemma update_unknown_id_witness :
  BellScheduler.bells
    (fst (BellScheduler.update_bell Sample.monday_morning "Nobody-00:00"
            Sample.recess
            (fst (BellScheduler.init Sample.monday_morning Missing))))
  = BellScheduler.default_bells.
Proof.
  pose proof (update_unknown_id Sample.monday_morning
                (fst (BellScheduler.init Sample.monday_morning Missing))
                "Nobody-00:00" Sample.recess) as H.
  cbv zeta in H. destruct H as [_ H].
  destruct H as [H _]; [| exact H].
  repeat constructor; discriminate.
Defined.

(** X11.  What a load does to the file.  With no file, a file that does not
    parse, or a file with a record that does not decode, the default
    schedule is put in memory and written out at once, replacing what was
    there.  With a file whose records all decode, the decoded bells are put
    in memory and the file is left exactly as it was. *)
Theorem load_bells_file (clock : Clock) (self : BellScheduler.t) :
  let self' := fst (BellScheduler.load_bells clock self) in
  (BellScheduler.bells_file self = Missing
   \/ BellScheduler.bells_file self = Corrupt
   \/ (exists bells_data e,
          BellScheduler.bells_file self = Records bells_data
          /\ comprehension Bell.from_dict bells_data = Raise e) ->
   BellScheduler.bells self' = BellScheduler.default_bells
   /\ BellScheduler.bells_file self'
      = Records (map Bell.to_dict BellScheduler.default_bells))
  /\ (forall bells_data bs,
         BellScheduler.bells_file self = Records bells_data ->
         comprehension Bell.from_dict bells_data = Ok bs ->
         BellScheduler.bells self' = bs
         /\ BellScheduler.bells_file self' = Records bells_data).
Proof.
  intros self'. pose proof (load_bells_state clock self) as H.
  cbv zeta in H. fold self' in H. unfold mirrored in H.
  split.
  - intros [F | [F | (ds & e & F & C)]]; rewrite F in H;
      try rewrite C in H; destruct H as [Hb Hf];
      (split; [exact Hb | rewrite Hf, Hb; reflexivity]).
  - intros ds bs F C. rewrite F, C in H. exact H.
Qed.

Lemma load_bells_file_witness :
  BellScheduler.bells_file
    (fst (BellScheduler.load_bells Sample.monday_morning
            (BellScheduler.mk [] None (PInt 0)
               (Records [Sample.record_bad_time]))))
  = Records [Sample.record_bad_time].
Proof.
  eapply (proj2 (load_bells_file Sample.monday_morning
                   (BellScheduler.mk [] None (PInt 0)
                      (Records [Sample.record_bad_time])))
            _ _ eq_refl eq_refl).
Defined.

(** X12.  Loading twice is loading once: a second load, at any later time,
    finds in memory the bells the first load left, whatever the file held
    at the start. *)
Theorem load_bells_twice (clock clock' : Clock) (self : BellScheduler.t) :
  BellScheduler.bells
    (fst (BellScheduler.load_bells clock'
            (fst (BellScheduler.load_bells clock self))))
  = BellScheduler.bells (fst (BellScheduler.load_bells clock self)).
Proof.
  pose proof (load_bells_state clock self) as H1. cbv zeta in H1.
  pose proof (load_bells_state clock'
                (fst (BellScheduler.load_bells clock self))) as H2.
  cbv zeta in H2. unfold mirrored in *.
  assert (Hdef : forall s,
             BellScheduler.bells s = BellScheduler.default_bells ->
             BellScheduler.bells_file s
             = Records (map Bell.to_dict (BellScheduler.bells s)) ->
             BellScheduler.bells_file s
             = Records (map Bell.to_dict BellScheduler.default_bells)).
  { intros s Hb Hf. rewrite Hf, Hb. reflexivity. }
  destruct (BellScheduler.bells_file self) as [| | ds].
  - destruct H1 as [Hb Hf]. rewrite (Hdef _ Hb Hf), default_bells_decode in H2.
    destruct H2 as [-> _]. symmetry. exact Hb.
  - destruct H1 as [Hb Hf]. rewrite (Hdef _ Hb Hf), default_bells_decode in H2.
    destruct H2 as [-> _]. symmetry. exact Hb.
  - destruct (comprehension Bell.from_dict ds) as [bs | e] eqn:C.
    + destruct H1 as [Hb Hf]. rewrite Hf, C in H2.
      destruct H2 as [-> _]. symmetry. exact Hb.
    + destruct H1 as [Hb Hf].
      rewrite (Hdef _ Hb Hf), default_bells_decode in H2.
      destruct H2 as [-> _]. symmetry. exact Hb.
Qed.

(** X13.  The id stored in a record is not read back: a decoded bell's id
    is always its name, a dash and its time as hh:mm, and every bell a
    load leaves in memory has such an id. *)
Theorem loaded_ids_are_derived :
  (forall data b,
      Bell.from_dict data = Ok b ->
      Bell.id b = (Bell.name b ++ "-" ++ QTime.toString (Bell.time b))%string)
  /\ (forall clock self,
         Forall (fun b =>
                   Bell.id b
                   = (Bell.name b ++ "-"
                      ++ QTime.toString (Bell.time b))%string)
                (BellScheduler.bells
                   (fst (BellScheduler.load_bells clock self)))).
Proof.
  split.
  - intros data b H. apply (from_dict_constructed data b H).
  - intros clock self. rewrite load_bells_bells.
    assert (Hd : Forall (fun b =>
                           Bell.id b
                           = (Bell.name b ++ "-"
                              ++ QTime.toString (Bell.time b))%string)
                        BellScheduler.default_bells)
      by (repeat constructor).
    destruct (BellScheduler.bells_file self) as [| | bells_data]; auto.
    destruct (comprehension Bell.from_dict bells_data) as [bs | e] eqn:E;
      auto.
    apply comprehension_Ok in E.
    induction E as [| d b ds bs Hdb _ IH]; constructor; auto.
    apply (from_dict_constructed d b Hdb).
Qed.

Lemma loaded_ids_are_derived_witness :
  exists b,
    Bell.from_dict
      {| k_name := Some "Gong"; k_time := Some "16:05"; k_sound := None;
         k_days := None; k_category := None; k_color := None;
         k_volume := None; k_enabled := None; k_icon := None;
         k_tts_message := None; k_repeat := None; k_urgent := None;
         k_silent := None; k_id := Some "custom-id" |} = Ok b
    /\ Bell.id b = "Gong-16:05".
Proof.
  match goal with
  | |- exists b, Bell.from_dict ?d = Ok b /\ _ =>
      destruct (Bell.from_dict d) as [b | e] eqn:E; [| discriminate E];
      exists b; split; [reflexivity |];
      rewrite (proj1 loaded_ids_are_derived d b E)
  end.
  inversion E. reflexivity.
Defined.

(** X14.  [get_bells_for_day] returns, in list order, the bells whose days
    contain the day, disabled ones included.  The bells considered for the
    next bell are its enabled bells for today, and every bell a poll
    triggers is among its bells for today. *)
Theorem bells_for_day_covers_polls (clock : Clock)
    (self : BellScheduler.t) :
  (forall day b,
      In b (BellScheduler.get_bells_for_day day self)
      <-> In b (BellScheduler.bells self)
          /\ py_in day (Bell.days b) = true)
  /\ BellScheduler.active_bells clock self
     = filter Bell.enabled
         (BellScheduler.get_bells_for_day (current_day clock) self)
  /\ (forall b,
         In (bell_triggered b) (snd (BellScheduler.check_bells clock self)) ->
         In b (BellScheduler.get_bells_for_day (current_day clock) self)).
Proof.
  split; [| split].
  - intros day b. unfold BellScheduler.get_bells_for_day.
    apply filter_In.
  - unfold BellScheduler.active_bells, BellScheduler.get_bells_for_day.
    apply filter_andb.
  - intros b Hb. apply In_triggered in Hb.
    rewrite triggered_check_bells, trigger_loop_filter in Hb.
    apply filter_In in Hb as [Hin Hdue]. apply due_true in Hdue.
    unfold BellScheduler.get_bells_for_day. apply filter_In. tauto.
Qed.

Lemma bells_for_day_covers_polls_witness :
  In Sample.assembly
     (BellScheduler.get_bells_for_day "Monday"
        (BellScheduler.mk [Sample.assembly] None (PInt 0) Missing)).
Proof.
  apply (proj1 (bells_for_day_covers_polls Sample.monday_morning
                  (BellScheduler.mk [Sample.assembly] None (PInt 0)
                     Missing))).
  split; [left |]; reflexivity.
Defined.


(** * Properties of the zone controller *)

(** ** The zones dictionary *)
Section ZoneDictFacts.

Lemma py_in_In (x : string) (xs : list string) :
  py_in x xs = true <-> In x xs.
Proof.
  unfold py_in. rewrite existsb_exists. split.
  - intros (y & Hy & E). apply String.eqb_eq in E. congruence.
  - intros H. exists x. split; [exact H | apply String.eqb_refl].
Qed.

Lemma dict_contains_In (key : string) (d : ZoneDict) :
  dict_contains key d = true <-> In key (map fst d).
Proof.
  induction d as [| [k v] rest IH]; simpl; [split; [discriminate | tauto] |].
  rewrite orb_true_iff, String.eqb_eq, IH. tauto.
Qed.

Lemma dict_contains_lookup (key : string) (d : ZoneDict) :
  dict_contains key d = false <-> dict_lookup key d = None.
Proof.
  induction d as [| [k v] rest IH]; simpl; [tauto |].
  destruct (String.eqb k key); simpl; [split; discriminate | exact IH].
Qed.

Lemma dict_setitem_keys (key : string) (value : Zone.t) (d : ZoneDict) :
  map fst (dict_setitem key value d)
  = if dict_contains key d then map fst d else map fst d ++ [key].
Proof.
  induction d as [| [k v] rest IH]; simpl; [reflexivity |].
  destruct (String.eqb k key); simpl; [reflexivity |].
  rewrite IH. destruct (dict_contains key rest); reflexivity.
Qed.

Lemma dict_setitem_new (key : string) (value : Zone.t) (d : ZoneDict) :
  dict_contains key d = false ->
  dict_setitem key value d = d ++ [(key, value)].
Proof.
  induction d as [| [k v] rest IH]; simpl; [reflexivity |].
  destruct (String.eqb k key); simpl; [discriminate |].
  intros H. rewrite IH by exact H. reflexivity.
Qed.




Lemma NoDup_snoc {A : Type} (l : list A) (x : A) :
  NoDup l -> ~ In x l -> NoDup (l ++ [x]).
Proof.
  induction 1 as [| y l Hy _ IH]; simpl; intros Hx.
  - constructor; [intros [] | constructor].
  - constructor.
    + rewrite in_app_iff. intros [H | [H | []]]; [auto | subst; auto].
    + apply IH. auto.
Qed.

Lemma dict_setitem_keyed (zone : Zone.t) (d : ZoneDict) :
  keyed_by_id d -> keyed_by_id (dict_setitem (Zone.id zone) zone d).
Proof.
  intros [HF HN]. split.
  - clear HN. induction HF as [| [k v] rest Hkv HF IH]; simpl.
    + constructor; [reflexivity | constructor].
    + destruct (String.eqb_spec k (Zone.id zone)) as [E | E].
      * constructor; [exact E | exact HF].
      * constructor; [exact Hkv | exact IH].
  - rewrite dict_setitem_keys.
    destruct (dict_contains (Zone.id zone) d) eqn:C; [exact HN |].
    apply NoDup_snoc; [exact HN |].
    intros H. apply dict_contains_In in H. congruence.
Qed.

Lemma dict_delitem_keys_incl (key k : string) (d : ZoneDict) :
  In k (map fst (dict_delitem key d)) -> In k (map fst d).
Proof.
  induction d as [| [k' v] rest IH]; simpl; [tauto |].
  destruct (String.eqb k' key); simpl; tauto.
Qed.

Lemma dict_delitem_keyed (key : string) (d : ZoneDict) :
  keyed_by_id d -> keyed_by_id (dict_delitem key d).
Proof.
  intros [HF HN]. split.
  - clear HN. induction HF as [| [k v] rest Hkv HF IH]; simpl;
      [constructor |].
    destruct (String.eqb k key); [exact HF | constructor; auto].
  - clear HF. induction d as [| [k v] rest IH]; simpl; [constructor |].
    inversion HN as [| k' l Hk Hl]; subst.
    destruct (String.eqb k key); [exact Hl |].
    simpl. constructor; [| apply IH; exact Hl].
    intros H. apply Hk. eapply dict_delitem_keys_incl. exact H.
Qed.

Lemma dict_delitem_gone (key : string) (d : ZoneDict) :
  NoDup (map fst d) -> dict_contains key (dict_delitem key d) = false.
Proof.
  induction d as [| [k v] rest IH]; simpl; intros HN; [reflexivity |].
  inversion HN as [| k' l Hk Hl]; subst.
  destruct (String.eqb_spec k key) as [-> | Hne]; simpl.
  - destruct (dict_contains key rest) eqn:C; [| reflexivity].
    apply dict_contains_In in C. contradiction.
  - rewrite (proj2 (String.eqb_neq k key) Hne). simpl. apply IH. exact Hl.
Qed.

Lemma dict_set_enabled_keyed (key : string) (value : bool) (d : ZoneDict) :
  keyed_by_id d -> keyed_by_id (dict_set_enabled key value d).
Proof.
  intros [HF HN].
  assert (K : map fst (dict_set_enabled key value d) = map fst d).
  { clear. induction d as [| [k v] rest IH]; simpl; [reflexivity |].
    destruct (String.eqb k key); simpl; congruence. }
  split; [| rewrite K; exact HN].
  clear HN K. induction HF as [| [k v] rest Hkv HF IH]; simpl;
    [constructor |].
  destruct (String.eqb k key); constructor; auto.
Qed.

Lemma load_loop_keyed (zones_data : list ZoneData) :
  forall d, keyed_by_id d ->
            keyed_by_id (MultiZoneController.load_loop zones_data d).
Proof.
  induction zones_data as [| zd rest IH]; intros d Hd; simpl; [exact Hd |].
  destruct (Zone.from_dict zd) as [z | e]; [| exact Hd].
  apply IH, dict_setitem_keyed, Hd.
Qed.

Lemma fold_setitem_keyed (l : list Zone.t) :
  forall d, keyed_by_id d ->
            keyed_by_id
              (fold_left (fun zones zone =>
                            dict_setitem (Zone.id zone) zone zones) l d).
Proof.
  induction l as [| z rest IH]; intros d Hd; simpl; [exact Hd |].
  apply IH, dict_setitem_keyed, Hd.
Qed.

Lemma zone_from_dict_to_dict (z : Zone.t) :
  Zone.id z <> "" -> Zone.from_dict (Zone.to_dict z) = Ok z.
Proof.
  destruct z as [n i d e vm ba sr c]. simpl. intros Hi.
  unfold Zone.from_dict, Zone.to_dict, Zone.init. simpl.
  destruct i as [| ch rest]; [contradiction |].
  destruct ba, sr; reflexivity.
Qed.

Lemma zone_from_dict_Raise (data : ZoneData) :
  zk_name data = None -> exists e, Zone.from_dict data = Raise e.
Proof.
  intros H. unfold Zone.from_dict. rewrite H. simpl. eauto.
Qed.

(** Decoding what [save_zones] writes stores each zone at the end, under
    its id. *)
Lemma load_loop_encoded (vs : list Zone.t) :
  forall d,
    Forall (fun z => Zone.id z <> "") vs ->
    NoDup (map Zone.id vs) ->
    (forall z, In z vs -> ~ In (Zone.id z) (map fst d)) ->
    MultiZoneController.load_loop (map Zone.to_dict vs) d
    = d ++ map (fun z => (Zone.id z, z)) vs.
Proof.
  induction vs as [| z rest IH]; intros d Hid Hnd Hfresh;
    cbn [map MultiZoneController.load_loop].
  - symmetry. apply app_nil_r.
  - inversion Hid as [| z' l Hz Hrest]; subst.
    inversion Hnd as [| i l Hi Hl]; subst.
    rewrite (zone_from_dict_to_dict z Hz).
    assert (C : dict_contains (Zone.id z) d = false).
    { destruct (dict_contains (Zone.id z) d) eqn:C; [| reflexivity].
      apply dict_contains_In in C. exfalso.
      apply (Hfresh z (or_introl eq_refl)). exact C. }
    rewrite (dict_setitem_new _ _ _ C), IH; auto.
    + rewrite <- app_assoc. reflexivity.
    + intros z' Hz' Hin. rewrite map_app, in_app_iff in Hin.
      destruct Hin as [Hin | [Hin | []]].
      * apply (Hfresh z' (or_intror Hz')). exact Hin.
      * apply Hi. simpl in Hin. rewrite Hin. apply in_map. exact Hz'.
Qed.

Lemma keyed_values (d : ZoneDict) :
  Forall (fun kv => fst kv = Zone.id (snd kv)) d ->
  map (fun z => (Zone.id z, z)) (dict_values d) = d
  /\ map Zone.id (dict_values d) = map fst d.
Proof.
  induction 1 as [| [k v] rest Hkv _ [IH1 IH2]]; simpl; [split; reflexivity |].
  simpl in Hkv. subst k. unfold dict_values in *. rewrite IH1, IH2.
  split; reflexivity.
Qed.

End ZoneDictFacts.

(** X15.  The zones a bell plays in are, in dictionary order, the enabled
    zones whose allowed list is empty or names the bell by its id or by its
    name.  A disabled zone is never among them, and a zone with an empty
    allowed list takes every bell. *)
Theorem zones_for_bell (bell : Bell.t) (self : MultiZoneController.t) :
  MultiZoneController.get_zones_for_bell bell self
  = filter (fun zone => Zone.can_play_bell zone bell)
           (MultiZoneController.get_enabled_zones self)
  /\ (forall zone,
         In zone (MultiZoneController.get_zones_for_bell bell self)
         <-> In zone (MultiZoneController.get_all_zones self)
             /\ Zone.enabled zone = true
             /\ (Zone.bells_allowed zone = []
                 \/ In (Bell.id bell) (Zone.bells_allowed zone)
                 \/ In (Bell.name bell) (Zone.bells_allowed zone))).
Proof.
  split.
  - unfold MultiZoneController.get_zones_for_bell,
      MultiZoneController.get_enabled_zones.
    rewrite <- filter_andb. apply filter_ext. intros z. apply andb_comm.
  - intros zone.
    unfold MultiZoneController.get_zones_for_bell,
      MultiZoneController.get_all_zones.
    rewrite filter_In, andb_true_iff. unfold Zone.can_play_bell.
    destruct (Zone.bells_allowed zone) as [| a rest] eqn:A.
    + split; [intros (Hin & He & _); auto | intros (Hin & He & _); auto].
    + rewrite orb_true_iff, !py_in_In. split.
      * intros (Hin & He & H). auto.
      * intros (Hin & He & [H | H]); [discriminate H | auto].
Qed.

Lemma zones_for_bell_witness :
  In (Zone.init "Gym" None "" true 100 (Some ["Lunch"]) None "#ff5500")
     (MultiZoneController.get_zones_for_bell
        (Bell.new "Lunch" (QTime.hm 12 25))
        (MultiZoneController.mk
           [("zone_gym",
             Zone.init "Gym" None "" true 100 (Some ["Lunch"]) None
               "#ff5500")]
           ZoneMissing)).
Proof.
  apply (proj2 (zones_for_bell
                  (Bell.new "Lunch" (QTime.hm 12 25))
                  (MultiZoneController.mk
                     [("zone_gym",
                       Zone.init "Gym" None "" true 100 (Some ["Lunch"])
                         None "#ff5500")]
                     ZoneMissing))).
  split; [left; reflexivity |]. split; [reflexivity |].
  right. right. left. reflexivity.
Defined.

(** X16.  A zone built by the constructor never has an empty id, and it
    comes back from [to_dict] and [from_dict] equal in every attribute, its
    id included. *)
Theorem zone_round_trip (name : string) (id : option string)
    (description : string) (enabled : bool) (volume_modifier : Z)
    (bells_allowed : option (list string))
    (special_rules : option (list (string * JSON))) (color : string) :
  let zone := Zone.init name id description enabled volume_modifier
                bells_allowed special_rules color in
  Zone.id zone <> ""
  /\ Zone.from_dict (Zone.to_dict zone) = Ok zone.
Proof.
  intros zone.
  assert (Hid : Zone.id zone <> "").
  { subst zone. simpl. destruct id as [[| c rest] |]; discriminate. }
  split; [exact Hid |].
  apply zone_from_dict_to_dict. exact Hid.
Qed.

(** X17.  When no zone of the dictionary has the id, [update_zone],
    [remove_zone] and [enable_zone] do nothing at all: the zones and the
    file stay as they were and no signal is emitted. *)
Theorem zone_unknown_id (self : MultiZoneController.t) (zone_id : string)
    (updated_zone : Zone.t) (enabled : bool) :
  keyed_by_id (MultiZoneController.zones self) ->
  Forall (fun zone => Zone.id zone <> zone_id)
         (MultiZoneController.get_all_zones self) ->
  MultiZoneController.update_zone zone_id updated_zone self = (self, [])
  /\ MultiZoneController.remove_zone zone_id self = (self, [])
  /\ MultiZoneController.enable_zone zone_id enabled self = (self, []).
Proof.
  intros [HF _] Hid.
  assert (C : dict_contains zone_id (MultiZoneController.zones self) = false).
  { destruct (dict_contains zone_id (MultiZoneController.zones self)) eqn:C;
      [| reflexivity].
    apply dict_contains_In in C.
    rewrite <- (proj2 (keyed_values _ HF)) in C.
    apply in_map_iff in C as (z & Hz & Hin).
    rewrite Forall_forall in Hid. exfalso. exact (Hid z Hin Hz). }
  unfold MultiZoneController.update_zone, MultiZoneController.remove_zone,
    MultiZoneController.enable_zone.
  rewrite C. repeat split.
Qed.

Lemma zone_unknown_id_witness :
  MultiZoneController.remove_zone "zone_library"
    (MultiZoneController.init ZoneMissing)
  = (MultiZoneController.init ZoneMissing, []).
Proof.
  apply (zone_unknown_id (MultiZoneController.init ZoneMissing)
           "zone_library"
           (Zone.init "Library" None "" true 100 None None "#fff") true).
  - split; [repeat constructor |].
    vm_compute. repeat constructor; simpl; intuition discriminate.
  - repeat constructor; discriminate.
Defined.



(** X19.  [load_zones] stops at the first record without a name: the
    records before it are loaded as if the file ended there, the records
    after it are ignored, and the file is left as it was.  When that record
    is the first of the file, the controller starts with no zone loaded and
    seeds the default zones. *)
Theorem load_zones_stops_at_bad_record (self : MultiZoneController.t)
    (good rest : list ZoneData) (bad : ZoneData) :
  MultiZoneController.zones_file self = ZoneRecords (good ++ bad :: rest) ->
  zk_name bad = None ->
  MultiZoneController.zones (MultiZoneController.load_zones self)
  = MultiZoneController.load_loop good (MultiZoneController.zones self)
  /\ MultiZoneController.zones_file (MultiZoneController.load_zones self)
     = MultiZoneController.zones_file self
  /\ MultiZoneController.init (ZoneRecords (bad :: rest))
     = MultiZoneController.create_default_zones
         (MultiZoneController.mk [] (ZoneRecords (bad :: rest))).
Proof.
  intros Hfile Hbad.
  destruct (zone_from_dict_Raise bad Hbad) as [e He].
  unfold MultiZoneController.load_zones. rewrite Hfile.
  cbn [MultiZoneController.zones MultiZoneController.zones_file].
  split; [| split; [reflexivity |]].
  - clear Hfile. generalize (MultiZoneController.zones self).
    induction good as [| g good IH]; intros d;
      cbn [app MultiZoneController.load_loop].
    + rewrite He. reflexivity.
    + destruct (Zone.from_dict g) as [z | e']; [apply IH | reflexivity].
  - unfold MultiZoneController.init, MultiZoneController.load_zones.
    cbn [MultiZoneController.zones MultiZoneController.zones_file
         MultiZoneController.load_loop].
    rewrite He. reflexivity.
Qed.

Lemma load_zones_stops_at_bad_record_witness :
  map fst
    (MultiZoneController.zones
       (MultiZoneController.load_zones
          (MultiZoneController.mk []
             (ZoneRecords
                [Zone.to_dict
                   (Zone.init "Hall" None "" true 100 None None "#fff");
                 mkZoneData None None None None None None None None;
                 Zone.to_dict
                   (Zone.init "Yard" None "" true 100 None None "#fff")]))))
  = ["zone_hall"].
Proof.
  rewrite (proj1 (load_zones_stops_at_bad_record
                    (MultiZoneController.mk []
                       (ZoneRecords
                          [Zone.to_dict
                             (Zone.init "Hall" None "" true 100 None None
                                "#fff");
                           mkZoneData None None None None None None None None;
                           Zone.to_dict
                             (Zone.init "Yard" None "" true 100 None None
                                "#fff")]))
                    [Zone.to_dict
                       (Zone.init "Hall" None "" true 100 None None "#fff")]
                    [Zone.to_dict
                       (Zone.init "Yard" None "" true 100 None None "#fff")]
                    (mkZoneData None None None None None None None None)
                    eq_refl eq_refl)).
  reflexivity.
Defined.

(** X20.  Zones written by [save_zones] and loaded into an empty controller
    are the zones that were saved, in the same order, when each was stored
    under its own, non-empty id. *)
Theorem zones_save_load (self : MultiZoneController.t) :
  keyed_by_id (MultiZoneController.zones self) ->
  Forall (fun zone => Zone.id zone <> "")
         (MultiZoneController.get_all_zones self) ->
  MultiZoneController.zones
    (MultiZoneController.load_zones
       (MultiZoneController.mk []
          (MultiZoneController.zones_file
             (MultiZoneController.save_zones self))))
  = MultiZoneController.zones self.
Proof.
  intros [HF HN] Hid.
  unfold MultiZoneController.load_zones, MultiZoneController.save_zones.
  cbn [MultiZoneController.zones MultiZoneController.zones_file].
  destruct (keyed_values _ HF) as [K1 K2].
  rewrite load_loop_encoded.
  - simpl. exact K1.
  - exact Hid.
  - rewrite K2. exact HN.
  - intros z _ [].
Qed.

Lemma zones_save_load_witness :
  MultiZoneController.zones
    (MultiZoneController.load_zones
       (MultiZoneController.mk []
          (MultiZoneController.zones_file
             (MultiZoneController.save_zones
                (MultiZoneController.init ZoneMissing)))))
  = MultiZoneController.zones (MultiZoneController.init ZoneMissing).
Proof.
  apply (zones_save_load (MultiZoneController.init ZoneMissing)).
  - split; [repeat constructor |].
    vm_compute. repeat constructor; simpl; intuition discriminate.
  - repeat constructor; discriminate.
Defined.

(** X21.  The controller keeps every zone under the zone's own id, each id
    once: this holds after [__init__] on any file, and [add_zone],
    [remove_zone] and [enable_zone] keep it; [update_zone] keeps it when the
    new zone has the id it is stored under.  After [remove_zone] the id is
    no longer in the dictionary. *)
Theorem zones_keyed_by_id (self : MultiZoneController.t) (zone : Zone.t)
    (zone_id : string) (enabled : bool) :
  (forall file, keyed_by_id
                  (MultiZoneController.zones (MultiZoneController.init file)))
  /\ (keyed_by_id (MultiZoneController.zones self) ->
      keyed_by_id
        (MultiZoneController.zones
           (fst (MultiZoneController.add_zone zone self)))
      /\ keyed_by_id
           (MultiZoneController.zones
              (fst (MultiZoneController.remove_zone zone_id self)))
      /\ dict_contains zone_id
           (MultiZoneController.zones
              (fst (MultiZoneController.remove_zone zone_id self))) = false
      /\ keyed_by_id
           (MultiZoneController.zones
              (fst (MultiZoneController.enable_zone zone_id enabled self)))
      /\ (Zone.id zone = zone_id ->
          keyed_by_id
            (MultiZoneController.zones
               (fst (MultiZoneController.update_zone zone_id zone self))))).
Proof.
  assert (Hnil : keyed_by_id []) by (split; constructor).
  split.
  - intros file. unfold MultiZoneController.init.
    assert (Hl : keyed_by_id
                   (MultiZoneController.zones
                      (MultiZoneController.load_zones
                         (MultiZoneController.mk [] file)))).
    { unfold MultiZoneController.load_zones.
      destruct file as [| | ds]; cbn [MultiZoneController.zones
                                      MultiZoneController.zones_file];
        auto.
      apply load_loop_keyed, Hnil. }
    destruct (MultiZoneController.zones
                (MultiZoneController.load_zones
                   (MultiZoneController.mk [] file))) eqn:E.
    + unfold MultiZoneController.create_default_zones,
        MultiZoneController.save_zones.
      cbn [MultiZoneController.zones]. rewrite E.
      apply fold_setitem_keyed, Hnil.
    + rewrite E. exact Hl.
  - intros Hk.
    unfold MultiZoneController.add_zone, MultiZoneController.remove_zone,
      MultiZoneController.enable_zone, MultiZoneController.update_zone.
    split; [| split; [| split; [| split]]].
    + destruct (dict_contains (Zone.id zone) _);
        cbn [fst MultiZoneController.save_zones MultiZoneController.zones];
        apply dict_setitem_keyed, Hk.
    + destruct (dict_contains zone_id _);
        cbn [fst MultiZoneController.save_zones MultiZoneController.zones];
        [apply dict_delitem_keyed |]; exact Hk.
    + destruct (dict_contains zone_id (MultiZoneController.zones self))
        eqn:C;
        cbn [fst MultiZoneController.save_zones MultiZoneController.zones];
        [apply dict_delitem_gone, Hk | exact C].
    + destruct (dict_contains zone_id _);
        cbn [fst MultiZoneController.save_zones MultiZoneController.zones];
        [apply dict_set_enabled_keyed |]; exact Hk.
    + intros <-.
      destruct (dict_contains (Zone.id zone) _);
        cbn [fst MultiZoneController.save_zones MultiZoneController.zones];
        [apply dict_setitem_keyed |]; exact Hk.
Qed.

Lemma zones_keyed_by_id_witness :
  dict_contains "zone_gym"
    (MultiZoneController.zones
       (fst (MultiZoneController.remove_zone "zone_gym"
               (MultiZoneController.init ZoneMissing)))) = false.
Proof.
  apply (proj2 (zones_keyed_by_id (MultiZoneController.init ZoneMissing)
                  (Zone.init "Gym" None "" true 100 None None "#fff")
                  "zone_gym" true)).
  split; [repeat constructor |].
  vm_compute. repeat constructor; simpl; intuition discriminate.
Defined.
